(** * Piton de la Fournaise seismic dashboard: alignment, risk tiers, spectrogram guard

    A shallow embedding of the three dashboard scripts of the repository

    - [src/dashboard_v2/app.py]   (module [DashboardV2]),
    - [src/Dashboard/app.py]      (module [Dashboard], the HEAD side of the
                                   unresolved merge, lines 2-170),
    - [src/app.py]                (module [App]),

    together with the part of pandas and Streamlit they rely on (modules
    [Py], [Pandas], [Streamlit]).

    Conventions.
    - A timestamp ([datetime64[ns, UTC]]) is a [Z]: whole seconds since the
      Unix epoch.  A [Timedelta] is a [Z] number of seconds.
    - A float is [NaN] or a rational; every finite double is a rational, and
      the comparisons of the scripts (against -80, 24, 800, ...) are exact on
      them.  Means are taken in exact arithmetic.  Infinities are left out.
    - A data frame is a list of named, typed columns and a list of rows, a
      row being a finite map from column names to cells.
    - A Python exception is a value of [Py.exn]; code that can raise returns
      a [Py.outcome].  Streamlit calls are collected in emission order. *)

From Stdlib Require Import QArith.
From stdpp Require Import gmap strings list fin_maps pretty.

Open Scope Z_scope.

(** ** Python: exceptions and dictionaries *)

Module Py.

Inductive exn :=
| KeyError (key : string)
| TypeError (msg : string)
| OSError (msg : string).

(** [str(e)] as it appears in an f-string. *)
Definition str (e : exn) : string :=
  match e with
  | KeyError key => "'" +:+ key +:+ "'"
  | TypeError msg => msg
  | OSError msg => msg
  end.

Inductive outcome (A : Type) :=
| Ok (a : A)
| Raise (e : exn).
Arguments Ok {A} a.
Arguments Raise {A} e.

(** [d[k]] on a dict. *)
Definition getitem {V} (d : gmap string V) (k : string) : outcome V :=
  match d !! k with
  | Some v => Ok v
  | None => Raise (KeyError k)
  end.

End Py.

(** ** Streamlit: the calls a script makes, and a writer/exception monad *)

Module Streamlit.
Import Py.

(** The payload handed to [go.Heatmap]: [z], [x], [y], [zmin], [zmax]. *)
Record heatmap := Heatmap {
  hm_z : list (list Q);
  hm_x : list Q;
  hm_y : list Q;
  hm_zmin : Q;
  hm_zmax : Q
}.

Inductive st_call :=
| st_warning (msg : string)
| st_error (msg : string)
| st_success (msg : string)
| st_markdown (msg : string)
| st_plotly_chart (fig : heatmap).

(** A computation emits Streamlit calls and then returns or raises. *)
Definition ST (A : Type) : Type := list st_call * outcome A.

Definition ret {A} (a : A) : ST A := ([], Ok a).

Definition bind {A B} (m : ST A) (f : A → ST B) : ST B :=
  match m with
  | (w, Ok a) => let '(w', r) := f a in (w ++ w', r)
  | (w, Raise e) => (w, Raise e)
  end.

Definition emit (c : st_call) : ST unit := ([c], Ok tt).

Definition lift {A} (o : outcome A) : ST A := ([], o).

(** [try: m  except Exception as e: h e] *)
Definition try_except {A} (m : ST A) (h : exn → ST A) : ST A :=
  match m with
  | (w, Raise e) => let '(w', r) := h e in (w ++ w', r)
  | (w, Ok a) => (w, Ok a)
  end.

Definition calls {A} (m : ST A) : list st_call := m.1.
Definition result {A} (m : ST A) : outcome A := m.2.

Global Instance ST_ret : MRet ST := @ret.
Global Instance ST_bind : MBind ST := λ A B f m, bind m f.

End Streamlit.

(** ** pandas: floats, cells, data frames *)

Module Pandas.
Import Py.

Inductive float :=
| NaN
| Fin (q : Q).

(** [x > y], [x >= y], [x <= y] against a finite constant; any comparison
    with NaN is [False]. *)
Definition float_gt (x : float) (y : Q) : bool :=
  match x with NaN => false | Fin q => negb (Qle_bool q y) end.
Definition float_ge (x : float) (y : Q) : bool :=
  match x with NaN => false | Fin q => Qle_bool y q end.
Definition float_le (x : float) (y : Q) : bool :=
  match x with NaN => false | Fin q => Qle_bool q y end.

Definition finite_values (xs : list float) : list Q :=
  omap (λ x, match x with Fin q => Some q | NaN => None end) xs.

Definition Qsum (qs : list Q) : Q := foldr Qplus 0%Q qs.

(** [Series.mean()]: NaN entries are skipped; no finite entry gives NaN. *)
Definition mean (xs : list float) : float :=
  match finite_values xs with
  | [] => NaN
  | qs => Fin (Qred (Qsum qs / inject_Z (Z.of_nat (length qs))))
  end.

(** [Series.max()]: NaN entries are skipped; no finite entry gives NaN. *)
Definition Qmax (a b : Q) : Q := if Qle_bool a b then b else a.
Definition max (xs : list float) : float :=
  match finite_values xs with
  | [] => NaN
  | q :: qs => Fin (foldl Qmax q qs)
  end.

(** *** Timestamps *)

(** Days from 1970-01-01 to the civil date [y]-[m]-[d] (proleptic
    Gregorian calendar). *)
Definition days_from_civil (y m d : Z) : Z :=
  let y' := if m <=? 2 then y - 1 else y in
  let era := y' / 400 in
  let yoe := y' - era * 400 in
  let mp := (m + 9) mod 12 in
  let doy := (153 * mp + 2) / 5 + d - 1 in
  let doe := yoe * 365 + yoe / 4 - yoe / 100 + doy in
  era * 146097 + doe - 719468.

(** [pd.to_datetime("y-m-d hh:mm:ss", utc=True)] *)
Definition to_datetime (y m d hh mm ss : Z) : Z :=
  days_from_civil y m d * 86400 + hh * 3600 + mm * 60 + ss.

(** [pd.Timedelta(hours=h)] *)
Definition Timedelta_hours (h : Z) : Z := h * 3600.

(** [td.total_seconds() / 3600] *)
Definition total_hours (dt : Z) : Q := Qred (dt # 3600).

(** *** Frames *)

Inductive dtype := float64 | object | datetime64.

Global Instance dtype_eq_dec : EqDecision dtype.
Proof. solve_decision. Defined.

(** A cell: a float, a Python string, a timestamp ([None] is NaT), or a
    [datetime.date]. *)
Inductive cell :=
| Num (x : float)
| Str (s : string)
| Time (t : option Z)
| Date (d : Z * Z * Z).

Record DataFrame := mkDataFrame {
  columns : list (string * dtype);
  rows : list (gmap string cell)
}.

(** [pd.DataFrame()] *)
Definition empty_frame : DataFrame := {| columns := []; rows := [] |}.

(** [df.empty]: some axis has length 0. *)
Definition empty (df : DataFrame) : bool :=
  match columns df, rows df with
  | _ :: _, _ :: _ => false
  | _, _ => true
  end.

Definition column_dtype (c : string) (df : DataFrame) : option dtype :=
  (list_to_map (columns df) : gmap string dtype) !! c.

Definition get_time (c : string) (r : gmap string cell) : option Z :=
  match r !! c with Some (Time t) => t | _ => None end.

Definition get_num (c : string) (r : gmap string cell) : float :=
  match r !! c with Some (Num x) => x | _ => NaN end.

Definition get_str (c : string) (r : gmap string cell) : option string :=
  match r !! c with Some (Str s) => Some s | _ => None end.

(** [df[mask]] for a row-wise boolean mask. *)
Definition select (mask : gmap string cell → bool) (df : DataFrame) : DataFrame :=
  {| columns := columns df; rows := List.filter mask (rows df) |}.

(** [df[(df[c] >= lo) & (df[c] <= hi)]] for timestamps [lo], [hi]: a
    missing column is a [KeyError], a column that does not hold timestamps
    cannot be compared with one; NaT compares [False]. *)
Definition time_between (c : string) (lo hi : Z) (r : gmap string cell) : bool :=
  match get_time c r with
  | Some t => (lo <=? t) && (t <=? hi)
  | None => false
  end.

Definition select_time_between (c : string) (lo hi : Z) (df : DataFrame)
  : outcome DataFrame :=
  match column_dtype c df with
  | None => Raise (KeyError c)
  | Some datetime64 => Ok (select (time_between c lo hi) df)
  | Some _ => Raise (TypeError "Invalid comparison between dtype and Timestamp")
  end.

(** [df[(df[c] >= lo) & (df[c] <= hi)]] for numbers [lo], [hi]. *)
Definition num_between (c : string) (lo hi : Q) (r : gmap string cell) : bool :=
  float_ge (get_num c r) lo && float_le (get_num c r) hi.

(** [df[df[c].isin(values)]] *)
Definition str_isin (c : string) (values : list string) (r : gmap string cell) : bool :=
  match get_str c r with
  | Some s => bool_decide (s ∈ values)
  | None => false
  end.

Definition select_isin (c : string) (values : list string) (df : DataFrame)
  : outcome DataFrame :=
  match column_dtype c df with
  | None => Raise (KeyError c)
  | Some _ => Ok (select (str_isin c values) df)
  end.

(** [df[(df[c] == value) & ...]] on a string column. *)
Definition str_eq (c : string) (value : string) (r : gmap string cell) : bool :=
  match get_str c r with
  | Some s => bool_decide (s = value)
  | None => false
  end.

(** [df[c] = f(row)]: the column is replaced in place when it exists and
    appended otherwise. *)
Definition set_column (c : string) (dt : dtype) (cols : list (string * dtype))
  : list (string * dtype) :=
  if bool_decide (c ∈ cols.*1)
  then (λ cd : string * dtype, if bool_decide (cd.1 = c) then (c, dt) else cd) <$> cols
  else cols ++ [(c, dt)].

Definition setitem (c : string) (dt : dtype) (f : gmap string cell → cell)
    (df : DataFrame) : DataFrame :=
  {| columns := set_column c dt (columns df);
     rows := (λ r, <[c := f r]> r) <$> rows df |}.

(** [(df[c] - t0).dt.total_seconds() / 3600] for one row. *)
Definition hours_since (c : string) (t0 : Z) (r : gmap string cell) : cell :=
  Num (match get_time c r with
       | Some t => Fin (total_hours (t - t0))
       | None => NaN
       end).

(** [df[c].max()] on a numeric column. *)
Definition column_max (c : string) (df : DataFrame) : outcome float :=
  match column_dtype c df with
  | None => Raise (KeyError c)
  | Some float64 => Ok (max (get_num c <$> rows df))
  | Some _ => Raise (TypeError "'>' not supported between instances")
  end.

(** *** Resampling *)

(** [Timestamp.normalize()]: midnight of the same UTC day. *)
Definition normalize (t : Z) : Z := 86400 * (t / 86400).

(** The left edge of the 10-minute bin of [t], bins being anchored at
    [origin] ([resample("10min")] has origin="start_day", closed="left",
    label="left"). *)
Definition bin_edge (origin t : Z) : Z := t - (t - origin) mod 600.

Definition index_times (index : string) (rs : list (gmap string cell)) : list Z :=
  omap (get_time index) rs.

Definition minimum (t0 : Z) (ts : list Z) : Z := foldr Z.min t0 ts.
Definition maximum (t0 : Z) (ts : list Z) : Z := foldr Z.max t0 ts.

(** Origin of the bins: midnight of the day of the first timestamp. *)
Definition bin_origin (times : list Z) : Z :=
  match times with
  | [] => 0
  | t0 :: ts => normalize (minimum t0 ts)
  end.

(** The labels of the output rows: every bin from the one of the earliest
    timestamp to the one of the latest, empty bins included. *)
Definition bin_labels (times : list Z) : list Z :=
  match times with
  | [] => []
  | t0 :: ts =>
      let origin := bin_origin times in
      let lo := bin_edge origin (minimum t0 ts) in
      let hi := bin_edge origin (maximum t0 ts) in
      (λ k, lo + 600 * k) <$> seqZ 0 ((hi - lo) / 600 + 1)
  end.

Definition in_bin (index : string) (origin label : Z) (r : gmap string cell) : bool :=
  match get_time index r with
  | Some t => bin_edge origin t =? label
  | None => false
  end.

(** The columns [mean(numeric_only=True)] keeps, the index apart. *)
Definition numeric_columns (index : string) (df : DataFrame) : list string :=
  (List.filter (λ cd : string * dtype,
      bool_decide (cd.2 = float64) && negb (bool_decide (cd.1 = index)))
    (columns df)).*1.

Definition bin_row (index : string) (nums : list string)
    (rs : list (gmap string cell)) (origin label : Z) : gmap string cell :=
  <[index := Time (Some label)]>
    (list_to_map ((λ c, (c, Num (mean (get_num c <$> List.filter (in_bin index origin label) rs)))) <$> nums)).

(** [df.set_index(index).resample("10min").mean(numeric_only=True).reset_index()] *)
Definition resample_10min_mean (index : string) (df : DataFrame) : DataFrame :=
  let times := index_times index (rows df) in
  let nums := numeric_columns index df in
  {| columns := (index, datetime64) :: ((λ c, (c, float64)) <$> nums);
     rows := bin_row index nums (rows df) (bin_origin times) <$> bin_labels times |}.

(** *** Concatenation *)

Definition add_columns (acc cols : list (string * dtype)) : list (string * dtype) :=
  acc ++ List.filter (λ cd : string * dtype, negb (bool_decide (cd.1 ∈ acc.*1))) cols.

Definition union_columns (frames : list DataFrame) : list (string * dtype) :=
  foldl (λ acc f, add_columns acc (columns f)) [] frames.

(** The missing value of a column a frame lacks. *)
Definition na (dt : dtype) : cell :=
  match dt with
  | datetime64 => Time None
  | _ => Num NaN
  end.

Definition na_row (cols : list (string * dtype)) : gmap string cell :=
  list_to_map ((λ cd : string * dtype, (cd.1, na cd.2)) <$> cols).

(** A row extended to the columns [cols]. *)
Definition reindex (cols : list (string * dtype)) (r : gmap string cell)
  : gmap string cell := r ∪ na_row cols.

(** [pd.concat(frames, ignore_index=True)]: the union of the columns in
    order of first appearance, the rows of the frames one frame after the
    other. *)
Definition concat (frames : list DataFrame) : DataFrame :=
  let cols := union_columns frames in
  {| columns := cols;
     rows := flat_map (λ f, reindex cols <$> rows f) frames |}.

(** *** The aligned frame of one eruption *)

(** Lines 227-235 of [src/dashboard_v2/app.py] and 132-144 of
    [src/Dashboard/app.py]: the frame appended for an eruption of instant
    [t0], from the frame [df] that the first window filter leaves. *)
Definition aligned (t0 : Z) (name color : string) (df : DataFrame) : DataFrame :=
  let df := setitem "hours_to_eruption" float64 (hours_since "time_min" t0) df in
  let df := select (num_between "hours_to_eruption" (-80) 24) df in
  let res := resample_10min_mean "time_min" df in
  let res := setitem "hours_to_eruption" float64 (hours_since "time_min" t0) res in
  let res := setitem "eruption" object (λ _, Str name) res in
  setitem "color" object (λ _, Str color) res.

(** The rows of [df] that reach the resampling step. *)
Definition windowed (t0 : Z) (df : DataFrame) : DataFrame :=
  select (num_between "hours_to_eruption" (-80) 24)
    (setitem "hours_to_eruption" float64 (hours_since "time_min" t0) df).

(** The shape of a row of the aligned frame whose resampled timestamp is
    [label]. *)
Definition aligned_row (t0 : Z) (name color : string) (label : Z)
    (r : gmap string cell) : Prop :=
  r !! "time_min" = Some (Time (Some label))
  ∧ r !! "hours_to_eruption" = Some (Num (Fin (total_hours (label - t0))))
  ∧ r !! "eruption" = Some (Str name)
  ∧ r !! "color" = Some (Str color).

(** The 10-minute bucket that starts at [label]: the rows whose timestamp
    [t] has [label <= t < label + 10 min]. *)
Definition in_bucket (index : string) (label : Z) (r : gmap string cell) : bool :=
  match get_time index r with
  | Some t => (label <=? t) && (t <? label + 600)
  | None => false
  end.

(** The mean of column [c] over the bucket that starts at [label]. *)
Definition bucket_mean (c : string) (label : Z) (df : DataFrame) : cell :=
  Num (mean (get_num c <$> List.filter (in_bucket "time_min" label) (rows df))).

(** The frame left by the first window filter, [t0 - 82h, t0 + 24h]. *)
Definition first_window (t0 : Z) (df : DataFrame) : DataFrame :=
  select (time_between "time_min" (t0 - Timedelta_hours 82)
            (t0 + Timedelta_hours 24)) df.

(** The midpoint of the 10-minute bucket that starts at [label]. *)
Definition bucket_midpoint (label : Z) : Z := label + 300.

(** [df.tail(n)]: the last [n] rows, all of them when there are fewer. *)
Definition tail (n : nat) (df : DataFrame) : DataFrame :=
  {| columns := columns df;
     rows := drop (length (rows df) - n) (rows df) |}.

End Pandas.

Global Instance outcome_ret : MRet Py.outcome := @Py.Ok.
Global Instance outcome_fmap : FMap Py.outcome := λ A B f m,
  match m with
  | Py.Ok a => Py.Ok (f a)
  | Py.Raise e => Py.Raise e
  end.
Global Instance outcome_bind : MBind Py.outcome := λ A B f m,
  match m with
  | Py.Ok a => f a
  | Py.Raise e => Py.Raise e
  end.

(** ** The five risk tiers, lowest first *)

Module Risk.
Import Pandas.

Inductive tier := NORMAL | ELEVATED | HIGH | IMMINENT | ERUPTION.

Definition severity (t : tier) : nat :=
  match t with
  | NORMAL => 0
  | ELEVATED => 1
  | HIGH => 2
  | IMMINENT => 3
  | ERUPTION => 4
  end%nat.

(** A chain of strict comparisons against descending thresholds, as each
    of the three scripts writes it. *)
Definition chain (c4 c3 c2 c1 : Q) (x : float) : tier :=
  if float_gt x c4 then ERUPTION
  else if float_gt x c3 then IMMINENT
  else if float_gt x c2 then HIGH
  else if float_gt x c1 then ELEVATED
  else NORMAL.

End Risk.

(** An entry of the [eruptions] table: [{"file": ..., "time": ...}]. *)
Record eruption_info := mkInfo {
  file : string;
  time : Z
}.

(** ** src/dashboard_v2/app.py *)

Module DashboardV2.
Import Py Streamlit Pandas Risk.

(** What the script reads from the outside: [Path.exists] on a file of
    [DATA_DIR], and lines 214-216 ([pd.read_csv], [pd.to_datetime(...,
    utc=True)] on [time_min], and [preprocess_data] of the module
    [preprocess_seismic], which is not part of the sources at hand). *)
Record FileSystem := mkFS {
  path_exists : string → bool;
  read_preprocessed : string → outcome DataFrame
}.

Definition eruptions : gmap string eruption_info := list_to_map [
  ("24 Aug 2015 – 16:50 UTC",
   {| file := "2015_08_24_19h_50_UTC_pf_aggregated_1min_1Hz.csv";
      time := to_datetime 2015 8 24 16 50 0 |});
  ("11 Sep 2016 – 04:05 UTC",
   {| file := "2016_09_11_06h_41_UTC_pf_aggregated_1min_1Hz.csv";
      time := to_datetime 2016 9 11 4 5 0 |});
  ("25 Oct 2019 – 12:40 UTC",
   {| file := "2019_10_25_12h_40_UTC_pf_aggregated_1min_1Hz.csv";
      time := to_datetime 2019 10 25 12 40 0 |});
  ("07 Dec 2020 – 00:40 UTC",
   {| file := "2020_12_07_02h_40_UTC_pf_aggregated_1min_1Hz.csv";
      time := to_datetime 2020 12 7 0 40 0 |});
  ("19 Sep 2022 – 06:23 UTC",
   {| file := "2022_09_19_06h_23_UTC_pf_aggregated_1min_1Hz.csv";
      time := to_datetime 2022 9 19 6 23 0 |});
  ("02 Jul 2023 – 04:30 UTC",
   {| file := "2023_07_02_04h_30_UTC_pf_aggregated_1min_1Hz.csv";
      time := to_datetime 2023 7 2 4 30 0 |})
].

Definition color_map : gmap string string := list_to_map [
  ("24 Aug 2015 – 16:50 UTC", "#e6194B");
  ("11 Sep 2016 – 04:05 UTC", "#f58231");
  ("25 Oct 2019 – 12:40 UTC", "#3cb44b");
  ("07 Dec 2020 – 00:40 UTC", "#42d4f4");
  ("19 Sep 2022 – 06:23 UTC", "#4363d8");
  ("02 Jul 2023 – 04:30 UTC", "#911eb4")
].

(** Lines 75-84: the tier of [latest_rsam]. *)
Definition classify (latest_rsam : float) : tier :=
  if float_gt latest_rsam 5000 then ERUPTION
  else if float_gt latest_rsam 3000 then IMMINENT
  else if float_gt latest_rsam 1500 then HIGH
  else if float_gt latest_rsam 800 then ELEVATED
  else NORMAL.

(** Lines 75-84: [level, color, emoji] of each branch. *)
Definition level_color_emoji (t : tier) : string * string * string :=
  match t with
  | ERUPTION => ("ERUPTION", "#9f00e0", "🟪")
  | IMMINENT => ("IMMINENT (<1h)", "#e60000", "🔴")
  | HIGH => ("HIGH (<12h)", "#ff6600", "🟠")
  | ELEVATED => ("ELEVATED (<48h)", "#ffd700", "🟡")
  | NORMAL => ("NORMAL", "#00b300", "🟢")
  end.

Definition level (latest_rsam : float) : string :=
  (level_color_emoji (classify latest_rsam)).1.1.

(** The thresholds of the chain, in the order it tests them. *)
Definition thresholds : list Q := [5000; 3000; 1500; 800]%Q.

(** Lines 213-236: the body of the [try]; [None] stands for [continue]. *)
Definition try_body (fs : FileSystem) (name : string) (info : eruption_info)
  : ST (option DataFrame) :=
  df_temp ← lift (read_preprocessed fs (file info));
  let start_time := time info - Timedelta_hours 82 in
  let end_time := time info + Timedelta_hours 24 in
  df_temp ← lift (select_time_between "time_min" start_time end_time df_temp);
  if empty df_temp then
    emit (st_warning ("No data in window for " +:+ name));;
    mret None
  else
    let df_temp :=
      setitem "hours_to_eruption" float64 (hours_since "time_min" (time info)) df_temp in
    let df_temp := select (num_between "hours_to_eruption" (-80) 24) df_temp in
    let resampled := resample_10min_mean "time_min" df_temp in
    let resampled :=
      setitem "hours_to_eruption" float64 (hours_since "time_min" (time info)) resampled in
    let resampled := setitem "eruption" object (λ _, Str name) resampled in
    color ← lift (getitem color_map name);
    let resampled := setitem "color" object (λ _, Str color) resampled in
    mret (Some resampled).

(** Lines 206-239: one turn of the [for] loop, returning [all_frames]. *)
Definition loop_body (fs : FileSystem) (name : string) (all_frames : list DataFrame)
  : ST (list DataFrame) :=
  info ← lift (getitem eruptions name);
  if negb (path_exists fs (file info)) then
    emit (st_warning ("File not found: " +:+ file info));;
    mret all_frames
  else
    resampled ← try_except (try_body fs name info)
      (λ e, emit (st_error ("Error loading " +:+ name +:+ ": " +:+ str e));;
            mret None);
    mret (match resampled with
          | Some f => all_frames ++ [f]
          | None => all_frames
          end).

Fixpoint loop (fs : FileSystem) (selected_list : list string)
    (all_frames : list DataFrame) : ST (list DataFrame) :=
  match selected_list with
  | [] => mret all_frames
  | name :: rest =>
      all_frames ← loop_body fs name all_frames;
      loop fs rest all_frames
  end.

(** Lines 204-241. *)
Definition load_aligned_selected (fs : FileSystem) (selected_list : list string)
  : ST DataFrame :=
  all_frames ← loop fs selected_list [];
  mret (match all_frames with
        | [] => empty_frame
        | _ => concat all_frames
        end).

(** The frame the loop appends for [name], when it appends one. *)
Definition frame_of (fs : FileSystem) (name : string) (f : DataFrame) : Prop :=
  ∃ info df color,
    eruptions !! name = Some info
    ∧ read_preprocessed fs (file info) = Ok df
    ∧ color_map !! name = Some color
    ∧ f = aligned (time info) name color (first_window (time info) df).

(** The file of [name], when it can be read, has no numeric [station]
    column (station identifiers are strings such as "BON"). *)
Definition station_is_text (fs : FileSystem) (name : string) : bool :=
  match eruptions !! name with
  | Some info =>
      match read_preprocessed fs (file info) with
      | Ok df => negb (bool_decide (("station", float64) ∈ columns df))
      | Raise _ => true
      end
  | None => true
  end.

(** Line 256: [df_compare[df_compare["eruption"] == eruption]]. *)
Definition segment (eruption : string) (df_compare : DataFrame) : DataFrame :=
  select (str_eq "eruption" eruption) df_compare.

(** Lines 403-452, the numeric part of the spectrogram branch ([fillna],
    [detrend], normalisation, [scipy_signal.spectrogram], decibels,
    percentile): floating-point library code, taken as given. *)
Record Scipy := mkScipy {
  heatmap_of : DataFrame → Z → outcome heatmap
}.

Definition not_enough_data : string :=
  "Not enough data points for spectrogram. Try another station or eruption.".

Definition what_you_see : string := "
    **What you're seeing:**
    - Gradual increase in low-frequency energy days before eruption
    - Sudden burst at t=0 (eruption onset)
    - Sustained broadband tremor during eruption
    - This is the actual seismic signature of Piton de la Fournaise
    ".

(** Lines 394-398: the rows of the station in the window. *)
Definition spectrogram_input (df_raw : DataFrame) (spec_station : string)
    (erupt_time : Z) : outcome DataFrame :=
  let start_time := erupt_time - Timedelta_hours 48 in
  let end_time := erupt_time + Timedelta_hours 12 in
  match column_dtype "station" df_raw, column_dtype "time_min" df_raw with
  | None, _ => Raise (KeyError "station")
  | Some _, None => Raise (KeyError "time_min")
  | Some _, Some datetime64 =>
      Ok (select (λ r, str_eq "station" spec_station r
                       && time_between "time_min" start_time end_time r) df_raw)
  | Some _, Some _ =>
      Raise (TypeError "Invalid comparison between dtype and Timestamp")
  end.

(** Lines 388-478. *)
Definition spectrogram_section (sp : Scipy) (df_raw : DataFrame)
    (spec_eruption spec_station : string) : ST unit :=
  info ← lift (getitem eruptions spec_eruption);
  let erupt_time := time info in
  df ← lift (spectrogram_input df_raw spec_station erupt_time);
  if (length (rows df) <? 100)%nat then
    emit (st_error not_enough_data)
  else
    fig ← lift (heatmap_of sp df erupt_time);
    emit (st_plotly_chart fig);;
    emit (st_success "REAL VOLCANIC TREMOR DETECTED!");;
    emit (st_markdown what_you_see).

(** *** The sidebar alert, lines 68-84 *)

Definition latest_file : string :=
  "2023_07_02_04h_30_UTC_pf_aggregated_1min_1Hz.csv".

(** Lines 69-84: the tier shown in the sidebar.  Inside the [try], a failing
    [pd.read_csv] and a failing [mean] (a column of strings) both end in the
    bare [except] and give 500; a missing column gives 500 as well.  The mean
    of a column of timestamps is a timestamp, and its comparison with 5000
    at line 75, outside the [try], raises. *)
Definition alert_tier (read_csv : string → outcome DataFrame) : outcome tier :=
  match read_csv latest_file with
  | Raise _ => Ok (classify (Fin 500))
  | Ok df =>
      let latest_data := tail 100 df in
      match column_dtype "amplitude_mean" latest_data with
      | None => Ok (classify (Fin 500))
      | Some float64 =>
          Ok (classify (mean (get_num "amplitude_mean" <$> rows latest_data)))
      | Some object => Ok (classify (Fin 500))
      | Some datetime64 =>
          Raise (TypeError "'>' not supported between instances of 'Timestamp' and 'int'")
      end
  end.

(** *** The station markers of the map, lines 46-54 and 150-171 *)

Definition station_coords : gmap string (Q * Q) := list_to_map [
  ("BON", (-21.280, 55.680)); ("DSM", (-21.270, 55.690)); ("DSO", (-21.235, 55.713));
  ("ENO", (-21.260, 55.720)); ("NSR", (-21.250, 55.700)); ("NTR", (-21.260, 55.695));
  ("BLE", (-21.252, 55.715)); ("CSS", (-21.238, 55.720)); ("HIM", (-21.225, 55.723));
  ("PJR", (-21.263, 55.682)); ("PCR", (-21.246, 55.702)); ("PER", (-21.254, 55.692));
  ("TKR", (-21.244, 55.708)); ("SNE", (-21.268, 55.685)); ("FJS", (-21.275, 55.705));
  ("LCR", (-21.245, 55.715)); ("PRA", (-21.255, 55.705)); ("PHR", (-21.250, 55.710));
  ("RVA", (-21.268, 55.675)); ("RVP", (-21.272, 55.680)); ("CRA", (-21.258, 55.698))
]%Q.

(** What is added to the map: [folium.CircleMarker(location, fill_color)]
    and [folium.Marker(location, DivIcon(html))]. *)
Inductive map_layer :=
| CircleMarker (location : Q * Q) (fill_color : string)
| Marker (location : Q * Q) (html : string).

(** The double-quote character of the HTML attribute. *)
Definition dquote : string := String (Ascii.ascii_of_nat 34) EmptyString.

Definition label_html (sta : string) : string :=
  "<div style=" +:+ dquote
  +:+ "font-size:17px;font-weight:bold;color:white;text-shadow:2px 2px 4px black;"
  +:+ dquote +:+ ">" +:+ sta +:+ "</div>".

(** Lines 153-171, from position [i] of the enumeration on; [colors] is
    [px.colors.qualitative.Bold * 2].  [None] stands for the
    [ZeroDivisionError] of [i % len(colors)] on an empty palette. *)
Fixpoint add_markers (colors : list string) (i : nat)
    (selected_stations_map : list string) : option (list map_layer) :=
  match selected_stations_map with
  | [] => Some []
  | sta :: rest =>
      match station_coords !! sta with
      | None => add_markers colors (S i) rest
      | Some loc =>
          match colors with
          | [] => None
          | _ =>
              fill_color ← colors !! (i mod length colors)%nat;
              layers ← add_markers colors (S i) rest;
              Some (CircleMarker loc fill_color :: Marker loc (label_html sta)
                      :: layers)
          end
      end
  end.

Definition layer_location (layer : map_layer) : Q * Q :=
  match layer with
  | CircleMarker location _ => location
  | Marker location _ => location
  end.

(** *** What the alignment does on a file that is there and readable *)

(** The eruption is in the table, its file exists and is read into a frame
    with a [time_min] column of timestamps and at least one row in
    [t0 - 82h, t0 + 24h]. *)
Definition in_window (fs : FileSystem) (name : string) : Prop :=
  ∃ info df,
    eruptions !! name = Some info
    ∧ path_exists fs (file info) = true
    ∧ read_preprocessed fs (file info) = Ok df
    ∧ column_dtype "time_min" df = Some datetime64
    ∧ empty (first_window (time info) df) = false.

(** The eruption is in the table, its file exists and is read into a frame
    with a [time_min] column of timestamps, none of them in
    [t0 - 82h, t0 + 24h]. *)
Definition out_of_window (fs : FileSystem) (name : string) : Prop :=
  ∃ info df,
    eruptions !! name = Some info
    ∧ path_exists fs (file info) = true
    ∧ read_preprocessed fs (file info) = Ok df
    ∧ column_dtype "time_min" df = Some datetime64
    ∧ empty (first_window (time info) df) = true.

End DashboardV2.

(** ** src/Dashboard/app.py (lines 2-170) *)

Module Dashboard.
Import Py Pandas Risk.

(** The names the script imports from modules that are not part of the
    sources at hand: [eruptions] and [color_map] of [constants], and
    [load_eruption_file] of [data_loader]. *)
Record Imports := mkImports {
  eruptions : gmap string eruption_info;
  color_map : gmap string string;
  load_eruption_file : string → outcome DataFrame
}.

(** Lines 35-44. *)
Definition classify (latest_rsam : float) : tier :=
  if float_gt latest_rsam 5000 then ERUPTION
  else if float_gt latest_rsam 3000 then IMMINENT
  else if float_gt latest_rsam 1500 then HIGH
  else if float_gt latest_rsam 800 then ELEVATED
  else NORMAL.

Definition level_color_emoji (t : tier) : string * string * string :=
  match t with
  | ERUPTION => ("ÉRUPTION", "#9f00e0", "🟪")
  | IMMINENT => ("IMMINENT (<1h)", "#e60000", "🔴")
  | HIGH => ("ÉLEVÉ (<12h)", "#ff6600", "🟠")
  | ELEVATED => ("MOYEN (<48h)", "#ffd700", "🟡")
  | NORMAL => ("NORMAL", "#00b300", "🟢")
  end.

Definition thresholds : list Q := [5000; 3000; 1500; 800]%Q.

(** Lines 118-146: one turn of the [for] loop; [None] stands for
    [continue]. *)
Definition loop_body (im : Imports) (selected_stations : list string) (name : string)
  : outcome (option DataFrame) :=
  df ← load_eruption_file im name;
  df ← select_isin "station" selected_stations df;
  info ← getitem (eruptions im) name;
  let start := time info - Timedelta_hours 82 in
  let end_ := time info + Timedelta_hours 24 in
  df ← select_time_between "time_min" start end_ df;
  if empty df then mret None
  else
    let df := setitem "hours_to_eruption" float64 (hours_since "time_min" (time info)) df in
    let df := select (num_between "hours_to_eruption" (-80) 24) df in
    let res := resample_10min_mean "time_min" df in
    let res := setitem "hours_to_eruption" float64 (hours_since "time_min" (time info)) res in
    let res := setitem "eruption" object (λ _, Str name) res in
    color ← getitem (color_map im) name;
    let res := setitem "color" object (λ _, Str color) res in
    mret (Some res).

Fixpoint loop (im : Imports) (selected_stations selected_list : list string)
    (frames : list DataFrame) : outcome (list DataFrame) :=
  match selected_list with
  | [] => mret frames
  | name :: rest =>
      res ← loop_body im selected_stations name;
      loop im selected_stations rest
        (match res with
         | Some f => frames ++ [f]
         | None => frames
         end)
  end.

(** The frames a loader must hand out for the loop not to raise before the
    window is looked at: a known eruption, a [station] column, and a
    [time_min] column of timestamps. *)
Definition loads_well (im : Imports) (name : string) : Prop :=
  ∃ df info,
    load_eruption_file im name = Ok df
    ∧ is_Some (column_dtype "station" df)
    ∧ column_dtype "time_min" df = Some datetime64
    ∧ eruptions im !! name = Some info.

(** The frame the loop appends for [name], when it appends one. *)
Definition frame_of (im : Imports) (selected_stations : list string)
    (name : string) (f : DataFrame) : Prop :=
  ∃ info df df' color,
    load_eruption_file im name = Ok df
    ∧ select_isin "station" selected_stations df = Ok df'
    ∧ eruptions im !! name = Some info
    ∧ color_map im !! name = Some color
    ∧ f = aligned (time info) name color (first_window (time info) df').

(** The frame loaded for [name], when there is one, has no numeric
    [station] column. *)
Definition station_is_text (im : Imports) (name : string) : bool :=
  match load_eruption_file im name with
  | Ok df => negb (bool_decide (("station", float64) ∈ columns df))
  | Raise _ => true
  end.

(** The same imports, with a loader that hands out the rows of the
    stations [selected_stations] only. *)
Definition prefiltered (im : Imports) (selected_stations : list string) : Imports :=
  {| eruptions := eruptions im;
     color_map := color_map im;
     load_eruption_file := λ name,
       df ← load_eruption_file im name;
       select_isin "station" selected_stations df |}.

(** Lines 115-148. *)
Definition load_aligned_selected (im : Imports)
    (selected_list selected_stations : list string) : outcome DataFrame :=
  frames ← loop im selected_stations selected_list [];
  mret (match frames with
        | [] => empty_frame
        | _ => concat frames
        end).

End Dashboard.

(** ** src/app.py *)

Module App.
Import Py Pandas Risk.

(** [date(y, m, d)] *)
Definition date : Type := Z * Z * Z.

Definition file_map : gmap (Z * Z * Z) string := list_to_map [
  ((2016, 9, 11), "2016_09_pf_aggregated_2016_1min_1Hz.csv");
  ((2019, 10, 25), "2019_10_pf_aggregated_2019_1min_1Hz.csv");
  ((2020, 12, 7), "2020_12_04pf_aggregated_1min_1Hz.csv");
  ((2023, 7, 2), "2023_07_pf_aggregated_2023_1min_1Hz.csv")
].

(** [repr(d)] *)
Definition repr (d : date) : string :=
  "datetime.date(" +:+ pretty d.1.1 +:+ ", " +:+ pretty d.1.2 +:+ ", "
    +:+ pretty d.2 +:+ ")".

(** Lines 54-58; [read_csv] stands for [pd.read_csv] followed by
    [pd.to_datetime] on [time_min]. *)
Definition load_data (read_csv : string → outcome DataFrame) (d : date)
  : outcome DataFrame :=
  match file_map !! d with
  | None => Raise (KeyError (repr d))
  | Some f =>
      df ← read_csv f;
      mret (setitem "eruption_date" object (λ _, Date d) df)
  end.

(** Lines 74-83. *)
Definition classify (max_std : float) : tier :=
  if float_gt max_std 100000 then ERUPTION
  else if float_gt max_std 30000 then IMMINENT
  else if float_gt max_std 10000 then HIGH
  else if float_gt max_std 3000 then ELEVATED
  else NORMAL.

(** [risk_text, risk_color, risk_emoji] of each branch. *)
Definition risk_text_color_emoji (t : tier) : string * string * string :=
  match t with
  | ERUPTION => ("Éruption en cours", "purple", "🟪")
  | IMMINENT => ("Risque < 1h", "red", "🔴")
  | HIGH => ("Risque < 12h", "orange", "🟠")
  | ELEVATED => ("Risque < 24h", "goldenrod", "🟡")
  | NORMAL => ("Pas de risque", "green", "🟢")
  end.

Definition thresholds : list Q := [100000; 30000; 10000; 3000]%Q.

(** What a run has computed when the risk panel is drawn. *)
Record panel := mkPanel {
  df_filtered : DataFrame;
  max_std : float;
  risk : string * string * string
}.

(** Lines 61-64: the frame [df] of the selected eruptions. *)
Definition load_selected (read_csv : string → outcome DataFrame)
    (selected_eruptions : list date) : outcome DataFrame :=
  match selected_eruptions with
  | [] => mret empty_frame
  | _ => frames ← mapM (load_data read_csv) selected_eruptions;
         mret (concat frames)
  end.

(** Line 72: [df["amplitude_std"].max() if not df.empty else 0]. *)
Definition max_std_of (df : DataFrame) : outcome float :=
  if negb (empty df) then column_max "amplitude_std" df else mret (Fin 0).

(** Lines 60-83, for the two selections of the sidebar. *)
Definition run (read_csv : string → outcome DataFrame)
    (selected_eruptions : list date) (selected_stations : list string)
  : outcome panel :=
  df ← load_selected read_csv selected_eruptions;
  (* line 66: df["station"] *)
  _ ← match column_dtype "station" df with
      | None => Raise (KeyError "station")
      | Some dt => Ok dt
      end;
  df_filtered ← match selected_stations with
                | [] => mret empty_frame
                | _ => select_isin "station" selected_stations df
                end;
  max_std ← max_std_of df;
  mret {| df_filtered := df_filtered;
          max_std := max_std;
          risk := risk_text_color_emoji (classify max_std) |}.

(** The tier the same chain would give on the station-filtered frame. *)
Definition risk_of_filtered (p : panel) : outcome (string * string * string) :=
  x ← max_std_of (df_filtered p);
  mret (risk_text_color_emoji (classify x)).

(** Lines 98-104. *)
Definition legend : list (string * string) := [
  ("purple", "Éruption en cours");
  ("red", "Risque très élevé (<1h)");
  ("orange", "Risque élevé (<12h)");
  ("goldenrod", "Risque modéré (<24h)");
  ("green", "Pas de risque détecté")
].

(** Lines 107-110: the entry of the current level. *)
Definition current_entry (col txt : string) : Streamlit.st_call :=
  Streamlit.st_markdown
    ("<div style='background:linear-gradient(90DEG," +:+ col
     +:+ "40,transparent); padding:12px; border-left:6px solid " +:+ col
     +:+ "; border-radius:8px; margin:8px 0;'><strong style='color:" +:+ col
     +:+ "'>➤ " +:+ txt +:+ " ← ACTUEL</strong></div>").

(** Line 112: any other entry. *)
Definition other_entry (col txt : string) : Streamlit.st_call :=
  Streamlit.st_markdown
    ("<small style='color:" +:+ col +:+ "'>" +:+ txt +:+ "</small>").

(** Lines 105-112: the legend drawn for [risk_text]. *)
Definition legend_calls (risk_text : string) : list Streamlit.st_call :=
  (λ entry : string * string,
     if bool_decide (entry.2 = risk_text)
     then current_entry entry.1 entry.2
     else other_entry entry.1 entry.2) <$> legend.

End App.

(** ** Sample inputs *)

Module Samples.
Import Py Streamlit Pandas.

Definition raw_columns : list (string * dtype) :=
  [("time_min", datetime64); ("station", object);
   ("amplitude_mean", float64); ("amplitude_std", float64)].

(** One row of a per-minute file. *)
Definition sample (t : Z) (station : string) (amplitude_mean amplitude_std : Q)
  : gmap string cell :=
  list_to_map [("time_min", Time (Some t)); ("station", Str station);
               ("amplitude_mean", Num (Fin amplitude_mean));
               ("amplitude_std", Num (Fin amplitude_std))].

Definition name_2015 : string := "24 Aug 2015 – 16:50 UTC".
Definition name_2016 : string := "11 Sep 2016 – 04:05 UTC".
Definition file_2016 : string := "2016_09_11_06h_41_UTC_pf_aggregated_1min_1Hz.csv".

(** 2016-09-07 20:05:00 UTC, 80 hours before the eruption of 11 Sep 2016. *)
Definition t_2016_minus_80h : Z := to_datetime 2016 9 7 20 5 0.

(** Rows of the 2016 file around the start of the window: two stations at
    20:05 and 20:06, one at 20:27. *)
Definition df_2016 : DataFrame :=
  {| columns := raw_columns;
     rows := [sample t_2016_minus_80h "BON" 10 2;
              sample t_2016_minus_80h "DSM" 30 4;
              sample (t_2016_minus_80h + 60) "BON" 20 6;
              sample (t_2016_minus_80h + 1320) "DSM" 5 1] |}.

(** A data directory that holds the 2016 file only. *)
Definition fs_2016 : DashboardV2.FileSystem :=
  {| DashboardV2.path_exists := λ f, bool_decide (f = file_2016);
     DashboardV2.read_preprocessed := λ f,
       if bool_decide (f = file_2016) then Ok df_2016
       else Raise (OSError "No such file or directory") |}.

(** A numeric library that fails on every input. *)
Definition no_scipy : DashboardV2.Scipy :=
  {| DashboardV2.heatmap_of := λ _ _, Raise (TypeError "unavailable") |}.

(** The imports of [src/Dashboard/app.py], with the tables of
    [src/dashboard_v2/app.py] and a loader that knows the 2016 eruption. *)
Definition imports_2016 : Dashboard.Imports :=
  {| Dashboard.eruptions := DashboardV2.eruptions;
     Dashboard.color_map := DashboardV2.color_map;
     Dashboard.load_eruption_file := λ name,
       if bool_decide (name = name_2016) then Ok df_2016
       else Raise (OSError "No such file or directory") |}.

(** The table returned for the 2016 eruption on [fs_2016], and its first
    row. *)
Definition table_2016 : DataFrame :=
  match result (DashboardV2.load_aligned_selected fs_2016 [name_2016]) with
  | Ok df => df
  | Raise _ => empty_frame
  end.

Definition row_2016 : gmap string cell :=
  match rows table_2016 with
  | r :: _ => r
  | [] => ∅
  end.

Definition row_2016_next : gmap string cell :=
  match rows table_2016 with
  | _ :: r :: _ => r
  | _ => ∅
  end.

(** The file of 7 Dec 2020 as [src/app.py] reads it: a quiet station and a
    loud one. *)
Definition df_2020 : DataFrame :=
  {| columns := raw_columns;
     rows := [sample (to_datetime 2020 12 6 0 0 0) "BON" 100 200;
              sample (to_datetime 2020 12 6 0 0 0) "DSM" 9000 50000] |}.

Definition read_csv_2020 (f : string) : outcome DataFrame :=
  if bool_decide (f = "2020_12_04pf_aggregated_1min_1Hz.csv") then Ok df_2020
  else Raise (OSError "No such file or directory").

(** One hundred per-minute rows of station BON, from 2016-09-10 00:00 UTC
    on, all of amplitude 900, and the same after three older rows. *)
Definition last_100 : list (gmap string cell) :=
  (λ k, sample (to_datetime 2016 9 10 0 0 0 + 60 * k) "BON" 900 1) <$> seqZ 0 100.

Definition df_100 : DataFrame :=
  {| columns := raw_columns; rows := last_100 |}.

Definition df_103 : DataFrame :=
  {| columns := raw_columns;
     rows := [sample 0 "BON" 9000 1; sample 60 "BON" 9000 1;
              sample 120 "BON" 9000 1] ++ last_100 |}.

(** A numeric library that returns the same small heatmap for every input. *)
Definition flat_heatmap : Streamlit.heatmap :=
  {| Streamlit.hm_z := [[0%Q]]; Streamlit.hm_x := [0%Q]; Streamlit.hm_y := [0%Q];
     Streamlit.hm_zmin := 0%Q; Streamlit.hm_zmax := 0%Q |}.

Definition flat_scipy : DashboardV2.Scipy :=
  {| DashboardV2.heatmap_of := λ _ _, Ok flat_heatmap |}.

(** A data directory where every file exists and only the 2016 file can be
    read. *)
Definition fs_unreadable : DashboardV2.FileSystem :=
  {| DashboardV2.path_exists := λ _, true;
     DashboardV2.read_preprocessed := DashboardV2.read_preprocessed fs_2016 |}.

(** A data directory where every file holds the rows of the 2016 file. *)
Definition fs_shared : DashboardV2.FileSystem :=
  {| DashboardV2.path_exists := λ _, true;
     DashboardV2.read_preprocessed := λ _, Ok df_2016 |}.

End Samples.

(** * Properties *)

(** ** The risk classifier *)

Section classifier.
Import Pandas Risk.

Lemma float_gt_mono (x y c : Q) :
  (x <= y)%Q → float_gt (Fin x) c = true → float_gt (Fin y) c = true.
Proof.
  unfold float_gt. intros Hxy Hx.
  apply negb_true_iff in Hx. apply negb_true_iff.
  destruct (Qle_bool y c) eqn:Hy; [|done].
  apply Qle_bool_iff in Hy.
  assert (Qle_bool x c = true) as Hc; [|congruence].
  apply Qle_bool_iff. by apply Qle_trans with y.
Qed.

Lemma float_gt_threshold (c : Q) : float_gt (Fin c) c = false.
Proof.
  unfold float_gt. apply negb_false_iff, Qle_bool_iff, Qle_refl.
Qed.

Lemma float_gt_above (x c : Q) : (c < x)%Q → float_gt (Fin x) c = true.
Proof.
  unfold float_gt. intros Hlt. apply negb_true_iff.
  destruct (Qle_bool x c) eqn:Hx; [|done].
  apply Qle_bool_iff in Hx. by apply Qlt_not_le in Hlt.
Qed.

Lemma float_gt_NaN (c : Q) : float_gt NaN c = false.
Proof. done. Qed.

Lemma chain_monotone (c4 c3 c2 c1 x y : Q) :
  (x <= y)%Q →
  (severity (chain c4 c3 c2 c1 (Fin x)) ≤ severity (chain c4 c3 c2 c1 (Fin y)))%nat.
Proof.
  intros Hxy. unfold chain.
  pose proof (float_gt_mono x y c4 Hxy).
  pose proof (float_gt_mono x y c3 Hxy).
  pose proof (float_gt_mono x y c2 Hxy).
  pose proof (float_gt_mono x y c1 Hxy).
  destruct (float_gt (Fin x) c4), (float_gt (Fin x) c3),
    (float_gt (Fin x) c2), (float_gt (Fin x) c1);
    repeat match goal with
      | H : true = true → _ |- _ => specialize (H eq_refl); rewrite H; clear H
      end;
    repeat match goal with
      | |- context [float_gt ?a ?b] => destruct (float_gt a b)
      end; simpl; lia.
Qed.

Lemma v2_classify_chain x : DashboardV2.classify x = chain 5000 3000 1500 800 x.
Proof. done. Qed.

Lemma dashboard_classify_chain x : Dashboard.classify x = chain 5000 3000 1500 800 x.
Proof. done. Qed.

Lemma app_classify_chain x : App.classify x = chain 100000 30000 10000 3000 x.
Proof. done. Qed.

(** The tier of an input strictly above a boundary is strictly more severe
    than the tier of the boundary value itself, for descending thresholds. *)
Lemma chain_strict_above (c4 c3 c2 c1 c x : Q) :
  (c1 < c2)%Q → (c2 < c3)%Q → (c3 < c4)%Q →
  c ∈ [c4; c3; c2; c1] → (c < x)%Q →
  (severity (chain c4 c3 c2 c1 (Fin c)) < severity (chain c4 c3 c2 c1 (Fin x)))%nat.
Proof.
  intros H12 H23 H34 Hc Hx.
  assert (c1 < c3)%Q as H13 by (by apply Qlt_trans with c2).
  assert (c2 < c4)%Q as H24 by (by apply Qlt_trans with c3).
  assert (c1 < c4)%Q as H14 by (by apply Qlt_trans with c3).
  assert (∀ a b, (a < b)%Q → float_gt (Fin a) b = false) as Hbelow.
  { intros a b Hab. unfold float_gt. apply negb_false_iff, Qle_bool_iff.
    by apply Qlt_le_weak. }
  unfold chain.
  repeat match goal with
    | H : _ ∈ _ :: _ |- _ => apply elem_of_cons in H as [->|H]
    | H : _ ∈ [] |- _ => by apply elem_of_nil in H
    end.
  - rewrite float_gt_threshold, (float_gt_above c4 c3), (float_gt_above x c4) by done.
    simpl. lia.
  - rewrite (Hbelow c3 c4), float_gt_threshold, (float_gt_above c3 c2) by done.
    destruct (float_gt (Fin x) c4); [simpl; lia|].
    rewrite (float_gt_above x c3) by done. simpl. lia.
  - rewrite (Hbelow c2 c4), (Hbelow c2 c3), float_gt_threshold,
      (float_gt_above c2 c1) by done.
    destruct (float_gt (Fin x) c4); [simpl; lia|].
    destruct (float_gt (Fin x) c3); [simpl; lia|].
    rewrite (float_gt_above x c2) by done. simpl. lia.
  - rewrite (Hbelow c1 c4), (Hbelow c1 c3), (Hbelow c1 c2), float_gt_threshold by done.
    destruct (float_gt (Fin x) c4); [simpl; lia|].
    destruct (float_gt (Fin x) c3); [simpl; lia|].
    destruct (float_gt (Fin x) c2); [simpl; lia|].
    rewrite (float_gt_above x c1) by done. simpl. lia.
Qed.

End classifier.

Section classifier_claims.
Import Pandas Risk.

(** C3, as stated, fails: with the thresholds of [src/dashboard_v2/app.py]
    the input 2000 exceeds 1500 and lands in the HIGH tier, and with those
    of [src/app.py] it stays below 3000 and lands in the lowest tier;
    neither script puts 2000 in the ELEVATED tier. *)
Lemma input_2000_is_not_elevated :
  DashboardV2.classify (Fin 2000) ≠ ELEVATED
  ∧ DashboardV2.level (Fin 2000) ≠ "ELEVATED (<48h)"
  ∧ App.classify (Fin 2000) ≠ ELEVATED.
Proof. by vm_compute. Qed.

(** C3, amended: both threshold chains are monotonic non-decreasing in
    severity on finite inputs; with the thresholds of
    [src/dashboard_v2/app.py], 2000 gives the HIGH tier, 6000 the ERUPTION
    tier, 0 and NaN the NORMAL tier; with those of [src/app.py], 2000, 0 and
    NaN give the lowest tier and 6000 the second one. *)
Theorem classify_monotone_examples :
  (∀ x y : Q, (x <= y)%Q →
     (severity (DashboardV2.classify (Fin x))
      ≤ severity (DashboardV2.classify (Fin y)))%nat)
  ∧ (∀ x y : Q, (x <= y)%Q →
       (severity (App.classify (Fin x)) ≤ severity (App.classify (Fin y)))%nat)
  ∧ DashboardV2.level (Fin 2000) = "HIGH (<12h)"
  ∧ DashboardV2.level (Fin 6000) = "ERUPTION"
  ∧ DashboardV2.level (Fin 0) = "NORMAL"
  ∧ DashboardV2.level NaN = "NORMAL"
  ∧ App.classify (Fin 2000) = NORMAL
  ∧ App.classify (Fin 6000) = ELEVATED
  ∧ App.classify (Fin 0) = NORMAL
  ∧ App.classify NaN = NORMAL.
Proof.
  split; [|split].
  - intros x y Hxy. rewrite !v2_classify_chain. by apply chain_monotone.
  - intros x y Hxy. rewrite !app_classify_chain. by apply chain_monotone.
  - by vm_compute.
Qed.

Lemma classify_monotone_examples_witness :
  (severity (DashboardV2.classify (Fin 1000))
   ≤ severity (DashboardV2.classify (Fin 2000)))%nat
  ∧ (severity (App.classify (Fin 2000)) ≤ severity (App.classify (Fin 6000)))%nat.
Proof.
  split.
  - apply (proj1 classify_monotone_examples 1000%Q 2000%Q). by vm_compute.
  - apply (proj1 (proj2 classify_monotone_examples) 2000%Q 6000%Q). by vm_compute.
Defined.

(** C4, as stated, fails: 5000 is the boundary between the IMMINENT and the
    ERUPTION tier, [5000 > 5000] is false, and the chain goes on to the
    IMMINENT tier, the lower of the two. *)
Lemma threshold_5000_is_not_eruption :
  DashboardV2.classify (Fin 5000) ≠ ERUPTION
  ∧ DashboardV2.classify (Fin 5000) = IMMINENT.
Proof. by vm_compute. Qed.

(** C4, amended: an input equal to a threshold gets the lower-severity tier
    of the two that meet there: its tier is strictly less severe than the
    tier of every input above the threshold, in both chains; the tiers of
    the four thresholds are, in descending order, IMMINENT, HIGH, ELEVATED
    and NORMAL. *)
Theorem threshold_gets_lower_tier :
  (∀ c x : Q, c ∈ DashboardV2.thresholds → (c < x)%Q →
     (severity (DashboardV2.classify (Fin c))
      < severity (DashboardV2.classify (Fin x)))%nat)
  ∧ (∀ c x : Q, c ∈ App.thresholds → (c < x)%Q →
       (severity (App.classify (Fin c)) < severity (App.classify (Fin x)))%nat)
  ∧ (λ c, DashboardV2.classify (Fin c)) <$> DashboardV2.thresholds
    = [IMMINENT; HIGH; ELEVATED; NORMAL]
  ∧ (λ c, App.classify (Fin c)) <$> App.thresholds
    = [IMMINENT; HIGH; ELEVATED; NORMAL].
Proof.
  split; [|split].
  - intros c x Hc Hx. rewrite !v2_classify_chain.
    by apply chain_strict_above.
  - intros c x Hc Hx. rewrite !app_classify_chain.
    by apply chain_strict_above.
  - by vm_compute.
Qed.

Lemma threshold_gets_lower_tier_witness :
  (severity (DashboardV2.classify (Fin 5000))
   < severity (DashboardV2.classify (Fin 5001)))%nat
  ∧ (severity (App.classify (Fin 3000)) < severity (App.classify (Fin 3001)))%nat.
Proof.
  split.
  - apply (proj1 threshold_gets_lower_tier 5000%Q 5001%Q).
    + unfold DashboardV2.thresholds. repeat constructor.
    + by vm_compute.
  - apply (proj1 (proj2 threshold_gets_lower_tier) 3000%Q 3001%Q).
    + unfold App.thresholds. repeat constructor.
    + by vm_compute.
Defined.

End classifier_claims.

(** ** The Streamlit monad *)

Section st_monad.
Import Py Streamlit.

Lemma st_bind_ok {A B} (w : list st_call) (a : A) (f : A → ST B) :
  (w, Ok a) ≫= f = (w ++ calls (f a), result (f a)).
Proof.
  unfold mbind, ST_bind, bind, calls, result. by destruct (f a).
Qed.

Lemma st_bind_raise {A B} (w : list st_call) (e : exn) (f : A → ST B) :
  (w, Raise e) ≫= f = (w, Raise e).
Proof. done. Qed.

Lemma st_bind_mret {A B} (a : A) (f : A → ST B) : mret a ≫= f = f a.
Proof.
  unfold mret, ST_ret, ret. rewrite st_bind_ok. simpl.
  unfold calls, result. by destruct (f a).
Qed.

Lemma st_bind_assoc {A B C} (m : ST A) (f : A → ST B) (g : B → ST C) :
  (m ≫= f) ≫= g = m ≫= (λ a, f a ≫= g).
Proof.
  destruct m as [w [a|e]]; [|done].
  unfold mbind, ST_bind, bind.
  destruct (f a) as [w' [b|e]]; [|done].
  destruct (g b) as [w'' r]. by rewrite app_assoc.
Qed.

Lemma st_calls_bind {A B} (m : ST A) (f : A → ST B) :
  calls (m ≫= f)
  = calls m ++ match result m with Ok a => calls (f a) | Raise _ => [] end.
Proof.
  destruct m as [w [a|e]].
  - by rewrite st_bind_ok.
  - rewrite st_bind_raise. unfold calls; simpl. by rewrite app_nil_r.
Qed.

Lemma st_result_bind {A B} (m : ST A) (f : A → ST B) :
  result (m ≫= f)
  = match result m with Ok a => result (f a) | Raise e => Raise e end.
Proof.
  destruct m as [w [a|e]]; [|done]. by rewrite st_bind_ok.
Qed.

Lemma st_lift_ok_bind {A B} (a : A) (f : A → ST B) : lift (Ok a) ≫= f = f a.
Proof. apply st_bind_mret. Qed.

Lemma st_emit_bind {A} (c : st_call) (m : ST A) :
  emit c ≫= (λ _, m) = (c :: calls m, result m).
Proof. unfold emit. by rewrite st_bind_ok. Qed.

Lemma getitem_Some {V} (d : gmap string V) (k : string) (v : V) :
  d !! k = Some v → getitem d k = Ok v.
Proof. unfold getitem. by intros ->. Qed.

Lemma getitem_None {V} (d : gmap string V) (k : string) :
  d !! k = None → getitem d k = Raise (KeyError k).
Proof. unfold getitem. by intros ->. Qed.

End st_monad.

(** ** The spectrogram guard *)

Section spectrogram.
Import Py Streamlit Pandas DashboardV2.

(** C5: when the series of the selected station in the window
    [erupt_time - 48h, erupt_time + 12h] has fewer than 100 rows, the
    spectrogram step makes exactly one Streamlit call, the error "Not enough
    data points for spectrogram ...", hands no heatmap to [st.plotly_chart],
    and ends without an exception, whatever the numeric library would do. *)
Theorem spectrogram_not_enough_data (sp : Scipy) (df_raw df : DataFrame)
    (spec_eruption spec_station : string) (info : eruption_info) :
  eruptions !! spec_eruption = Some info →
  spectrogram_input df_raw spec_station (time info) = Ok df →
  (length (rows df) < 100)%nat →
  spectrogram_section sp df_raw spec_eruption spec_station
    = ([st_error not_enough_data], Ok tt)
  ∧ ∀ fig, st_plotly_chart fig
           ∉ calls (spectrogram_section sp df_raw spec_eruption spec_station).
Proof.
  intros Hinfo Hdf Hlen.
  assert (spectrogram_section sp df_raw spec_eruption spec_station
          = ([st_error not_enough_data], Ok tt)) as Heq.
  { unfold spectrogram_section, getitem, lift, mbind, ST_bind, bind.
    rewrite Hinfo, Hdf.
    apply Nat.ltb_lt in Hlen. by rewrite Hlen. }
  split; [done|].
  intros fig. rewrite Heq. unfold calls; simpl.
  intros Hin. apply list_elem_of_singleton in Hin. discriminate.
Qed.

End spectrogram.

Section spectrogram_witness.
Import Py Streamlit Pandas DashboardV2.

Lemma spectrogram_not_enough_data_witness :
  spectrogram_section Samples.no_scipy Samples.df_2016 Samples.name_2016 "BON"
    = ([st_error not_enough_data], Ok tt)
  ∧ ∀ fig, st_plotly_chart fig
           ∉ calls (spectrogram_section Samples.no_scipy Samples.df_2016
                      Samples.name_2016 "BON").
Proof.
  eapply (spectrogram_not_enough_data Samples.no_scipy Samples.df_2016 _
            Samples.name_2016 "BON" _).
  - vm_compute. reflexivity.
  - vm_compute. reflexivity.
  - vm_compute. lia.
Defined.

End spectrogram_witness.

(** ** Alignment in src/dashboard_v2/app.py: the loop *)

Section v2_loop.
Import Py Streamlit Pandas DashboardV2.
Context (fs : FileSystem).

(** The frames a turn of the loop appends do not depend on the frames
    collected so far. *)
Lemma loop_body_acc (name : string) (acc : list DataFrame) :
  loop_body fs name acc
  = (calls (loop_body fs name []),
     match result (loop_body fs name []) with
     | Ok fr => Ok (acc ++ fr)
     | Raise e => Raise e
     end).
Proof.
  unfold loop_body.
  destruct (eruptions !! name) as [info|] eqn:Hinfo.
  - rewrite (getitem_Some _ _ _ Hinfo), !st_lift_ok_bind.
    destruct (negb (path_exists fs (file info))).
    + rewrite !st_emit_bind. simpl. by rewrite app_nil_r.
    + destruct (try_except _ _) as [w [[f|]|e]]; rewrite ?st_bind_ok; simpl;
        unfold calls, result; simpl; by rewrite ?app_nil_r.
  - by rewrite (getitem_None _ _ Hinfo).
Qed.

Lemma loop_acc (selected_list : list string) (acc : list DataFrame) :
  loop fs selected_list acc
  = (calls (loop fs selected_list []),
     match result (loop fs selected_list []) with
     | Ok fr => Ok (acc ++ fr)
     | Raise e => Raise e
     end).
Proof.
  revert acc. induction selected_list as [|name rest IH]; intros acc.
  - simpl. by rewrite app_nil_r.
  - cbn [loop]. rewrite (loop_body_acc name acc).
    destruct (loop_body fs name []) as [w [fr|e]] eqn:Hbody;
      cbn [calls result fst snd]; [|done].
    rewrite !st_bind_ok. rewrite (IH (acc ++ fr)), (IH fr).
    cbn [calls result fst snd].
    destruct (loop fs rest []) as [w' [fr'|e]]; cbn [calls result fst snd]; [|done].
    by rewrite app_assoc.
Qed.

Lemma loop_app (l1 l2 : list string) (acc : list DataFrame) :
  loop fs (l1 ++ l2) acc = loop fs l1 acc ≫= loop fs l2.
Proof.
  revert acc. induction l1 as [|name rest IH]; intros acc.
  - cbn [app loop]. by rewrite st_bind_mret.
  - cbn [app loop]. rewrite st_bind_assoc.
    destruct (loop_body fs name acc) as [w [fr|e]]; [|done].
    rewrite !st_bind_ok. by rewrite IH.
Qed.

(** A turn for an eruption whose file is missing: one warning, nothing
    appended. *)
Lemma loop_body_missing (name : string) (info : eruption_info)
    (acc : list DataFrame) :
  eruptions !! name = Some info →
  path_exists fs (file info) = false →
  loop_body fs name acc
  = ([st_warning ("File not found: " +:+ file info)], Ok acc).
Proof.
  intros Hinfo Hmiss. unfold loop_body.
  rewrite (getitem_Some _ _ _ Hinfo), st_lift_ok_bind, Hmiss. cbn [negb].
  by rewrite st_emit_bind.
Qed.

(** The loop raises only on a name that is not a key of [eruptions]. *)
Lemma loop_body_known (name : string) (acc : list DataFrame) :
  is_Some (eruptions !! name) → ∃ fr, result (loop_body fs name acc) = Ok fr.
Proof.
  intros [info Hinfo]. unfold loop_body.
  rewrite (getitem_Some _ _ _ Hinfo), st_lift_ok_bind.
  destruct (negb (path_exists fs (file info))).
  - rewrite st_emit_bind. simpl. eauto.
  - rewrite st_result_bind.
    destruct (try_body fs name info) as [w [r|e]]; simpl; eauto.
Qed.

Lemma loop_known (selected_list : list string) (acc : list DataFrame) :
  Forall (λ name, is_Some (eruptions !! name)) selected_list →
  ∃ fr, result (loop fs selected_list acc) = Ok fr.
Proof.
  revert acc. induction selected_list as [|name rest IH]; intros acc Hall.
  - simpl. eauto.
  - apply Forall_cons in Hall as [Hname Hrest]. cbn [loop].
    rewrite st_result_bind.
    destruct (loop_body_known name acc Hname) as [fr ->]. by apply IH.
Qed.

Lemma load_calls (selected_list : list string) :
  calls (load_aligned_selected fs selected_list) = calls (loop fs selected_list []).
Proof.
  unfold load_aligned_selected. rewrite st_calls_bind.
  destruct (result (loop fs selected_list [])); simpl; by rewrite app_nil_r.
Qed.

Lemma load_result (selected_list : list string) :
  result (load_aligned_selected fs selected_list)
  = match result (loop fs selected_list []) with
    | Ok [] => Ok empty_frame
    | Ok all_frames => Ok (concat all_frames)
    | Raise e => Raise e
    end.
Proof.
  unfold load_aligned_selected. rewrite st_result_bind.
  by destruct (result (loop fs selected_list [])) as [[|??]|?].
Qed.

End v2_loop.

Section v2_isolation.
Import Py Streamlit Pandas DashboardV2.

(** C6: an eruption of the table whose file is missing is skipped with the
    warning "File not found: <file>" and nothing else: the table returned
    for a selection that contains it is the table returned for the selection
    without it (so every other eruption keeps exactly its rows), and the
    Streamlit calls are those of the eruptions before it, the warning, and
    those of the eruptions after it. *)
Theorem missing_file_is_isolated (fs : FileSystem) (l1 l2 : list string)
    (x : string) (info : eruption_info) :
  eruptions !! x = Some info →
  path_exists fs (file info) = false →
  result (load_aligned_selected fs (l1 ++ x :: l2))
    = result (load_aligned_selected fs (l1 ++ l2))
  ∧ (Forall (λ name, is_Some (eruptions !! name)) l1 →
     calls (load_aligned_selected fs (l1 ++ x :: l2))
       = calls (load_aligned_selected fs l1)
         ++ st_warning ("File not found: " +:+ file info)
            :: calls (load_aligned_selected fs l2)
     ∧ calls (load_aligned_selected fs (l1 ++ l2))
       = calls (load_aligned_selected fs l1)
         ++ calls (load_aligned_selected fs l2)).
Proof.
  intros Hinfo Hmiss.
  assert (∀ acc, loop fs (x :: l2) acc
                 = (st_warning ("File not found: " +:+ file info)
                      :: calls (loop fs l2 acc), result (loop fs l2 acc)))
    as Hskip.
  { intros acc. cbn [loop].
    rewrite (loop_body_missing fs x info acc Hinfo Hmiss).
    by rewrite st_bind_ok. }
  split.
  - rewrite !load_result, !loop_app, !st_result_bind.
    destruct (result (loop fs l1 [])) as [fr|e]; [|done].
    by rewrite Hskip.
  - intros Hknown. rewrite !load_calls, !loop_app, !st_calls_bind.
    destruct (loop_known fs l1 [] Hknown) as [fr ->].
    rewrite Hskip. cbn [calls fst].
    rewrite (loop_acc fs l2 fr). done.
Qed.

Lemma missing_file_is_isolated_witness :
  result (load_aligned_selected Samples.fs_2016 ([] ++ Samples.name_2015 :: [Samples.name_2016]))
    = result (load_aligned_selected Samples.fs_2016 ([] ++ [Samples.name_2016]))
  ∧ (Forall (λ name, is_Some (eruptions !! name)) [] →
     calls (load_aligned_selected Samples.fs_2016 ([] ++ Samples.name_2015 :: [Samples.name_2016]))
       = calls (load_aligned_selected Samples.fs_2016 [])
         ++ st_warning ("File not found: "
                        +:+ "2015_08_24_19h_50_UTC_pf_aggregated_1min_1Hz.csv")
            :: calls (load_aligned_selected Samples.fs_2016 [Samples.name_2016])
     ∧ calls (load_aligned_selected Samples.fs_2016 ([] ++ [Samples.name_2016]))
       = calls (load_aligned_selected Samples.fs_2016 [])
         ++ calls (load_aligned_selected Samples.fs_2016 [Samples.name_2016])).
Proof.
  apply (missing_file_is_isolated Samples.fs_2016 [] [Samples.name_2016]
           Samples.name_2015
           {| file := "2015_08_24_19h_50_UTC_pf_aggregated_1min_1Hz.csv";
              time := to_datetime 2015 8 24 16 50 0 |}).
  - vm_compute. reflexivity.
  - vm_compute. reflexivity.
Defined.

End v2_isolation.

(** ** Alignment in src/Dashboard/app.py: the station filter *)

Section dashboard_stations.
Import Py Pandas Dashboard.

Lemma column_dtype_select (c : string) (mask : gmap string cell → bool)
    (df : DataFrame) :
  column_dtype c (select mask df) = column_dtype c df.
Proof. done. Qed.

Lemma filter_idempotent {A} (p : A → bool) (l : list A) :
  List.filter p (List.filter p l) = List.filter p l.
Proof.
  induction l as [|a l IH]; [done|]. simpl.
  destruct (p a) eqn:Hp; simpl; [|done]. by rewrite Hp, IH.
Qed.

Lemma filter_none {A} (p : A → bool) (l : list A) :
  (∀ a, p a = false) → List.filter p l = [].
Proof.
  intros Hp. induction l as [|a l IH]; [done|]. simpl. by rewrite Hp.
Qed.

Lemma select_isin_idempotent (c : string) (values : list string)
    (df df' : DataFrame) :
  select_isin c values df = Ok df' → select_isin c values df' = Ok df'.
Proof.
  unfold select_isin.
  destruct (column_dtype c df) as [dt|] eqn:Hdt; [|done].
  intros [= <-]. rewrite column_dtype_select, Hdt.
  unfold select; simpl. by rewrite filter_idempotent.
Qed.

Lemma select_isin_nil (c : string) (df : DataFrame) :
  is_Some (column_dtype c df) →
  select_isin c [] df = Ok {| columns := columns df; rows := [] |}.
Proof.
  intros [dt Hdt]. unfold select_isin, select. rewrite Hdt.
  rewrite filter_none; [done|].
  intros r. unfold str_isin. destruct (get_str c r); [|done].
  apply bool_decide_eq_false. apply not_elem_of_nil.
Qed.

Lemma loop_body_no_station (im : Imports) (name : string) :
  loads_well im name → loop_body im [] name = Ok None.
Proof.
  intros (df & info & Hload & Hsta & Htime & Hinfo).
  unfold loop_body. rewrite Hload. cbn [mbind outcome_bind].
  rewrite (select_isin_nil "station" df Hsta).
  rewrite (getitem_Some _ _ _ Hinfo). cbn [mbind outcome_bind].
  unfold select_time_between, column_dtype in *. cbn [columns].
  rewrite Htime. cbn [mbind outcome_bind].
  unfold empty, select. cbn [columns rows List.filter].
  by destruct (columns df).
Qed.

Lemma loop_no_station (im : Imports) (selected_list : list string)
    (frames : list DataFrame) :
  Forall (loads_well im) selected_list →
  loop im [] selected_list frames = Ok frames.
Proof.
  induction 1 as [|name rest Hname Hrest IH]; [done|].
  cbn [loop]. by rewrite (loop_body_no_station im name Hname).
Qed.

Lemma station_filter_first (im : Imports) (selected_stations : list string)
    (name : string) :
  loop_body im selected_stations name
  = loop_body (prefiltered im selected_stations) selected_stations name.
Proof.
  unfold loop_body, prefiltered. cbn [load_eruption_file eruptions color_map].
  destruct (load_eruption_file im name) as [df|e]; [|done].
  cbn [mbind outcome_bind].
  destruct (select_isin "station" selected_stations df) as [df'|e] eqn:Hsel;
    [|done].
  cbn [mbind outcome_bind].
  by rewrite (select_isin_idempotent _ _ _ _ Hsel).
Qed.

(** C7: the loop filters the loaded frame by station before it applies the
    window and before it resamples: a turn on the loaded frame is the turn
    on the frame already restricted to the selected stations.  For the empty
    station selection, every eruption whose frame loads hits the empty-frame
    [continue], appends nothing, and the routine returns the empty frame. *)
Theorem empty_station_selection (im : Imports) (selected_list : list string) :
  (∀ selected_stations name,
     loop_body im selected_stations name
     = loop_body (prefiltered im selected_stations) selected_stations name)
  ∧ (Forall (loads_well im) selected_list →
     Forall (λ name, loop_body im [] name = Ok None) selected_list
     ∧ load_aligned_selected im selected_list [] = Ok empty_frame).
Proof.
  split; [apply station_filter_first|].
  intros Hall. split.
  - eapply Forall_impl; [exact Hall|]. apply loop_body_no_station.
  - unfold load_aligned_selected. by rewrite loop_no_station.
Qed.

End dashboard_stations.

Section dashboard_stations_witness.
Import Py Pandas Dashboard.

Lemma empty_station_selection_witness :
  Forall (λ name, loop_body Samples.imports_2016 [] name = Ok None)
    [Samples.name_2016]
  ∧ load_aligned_selected Samples.imports_2016 [Samples.name_2016] []
    = Ok empty_frame.
Proof.
  apply (proj2 (empty_station_selection Samples.imports_2016 [Samples.name_2016])).
  constructor; [|constructor].
  exists Samples.df_2016,
    {| file := Samples.file_2016; time := to_datetime 2016 9 11 4 5 0 |}.
  repeat split; vm_compute; eauto.
Defined.

End dashboard_stations_witness.

(** ** The risk panel of src/app.py *)

Section app_risk.
Import Py Pandas Risk App.

(** C9: the run of [src/app.py] draws the risk tier from the maximum of
    [amplitude_std] over the frame of the selected eruptions, all stations
    included (or from 0 when that frame is empty); the station selection
    does not enter: two runs on the same eruptions, whatever their station
    selections, raise the same exception or show the same text, colour and
    emoji. *)
Theorem risk_ignores_station_selection (read_csv : string → outcome DataFrame)
    (selected_eruptions : list date) (stations1 stations2 : list string) :
  risk <$> run read_csv selected_eruptions stations1
    = risk <$> run read_csv selected_eruptions stations2
  ∧ ∀ p, run read_csv selected_eruptions stations1 = Ok p →
         ∃ df, load_selected read_csv selected_eruptions = Ok df
               ∧ max_std_of df = Ok (max_std p)
               ∧ risk p = risk_text_color_emoji (classify (max_std p)).
Proof.
  unfold run.
  destruct (load_selected read_csv selected_eruptions) as [df|e]; [|done].
  cbn [mbind outcome_bind].
  destruct (column_dtype "station" df) as [dt|] eqn:Hsta; [|done].
  cbn [mbind outcome_bind].
  assert (∀ stations, ∃ df', match stations with
                             | [] => mret empty_frame
                             | _ => select_isin "station" stations df
                             end = Ok df') as Hfil.
  { intros [|s l]; [by eexists|]. unfold select_isin. rewrite Hsta. by eexists. }
  destruct (Hfil stations1) as [df1 ->], (Hfil stations2) as [df2 ->].
  cbn [mbind outcome_bind].
  destruct (max_std_of df) as [x|e] eqn:Hmax; [|done].
  split; [done|].
  intros p [= <-]. exists df. by rewrite Hmax.
Qed.

Lemma risk_ignores_station_selection_witness :
  risk <$> run Samples.read_csv_2020 [(2020, 12, 7)] ["BON"]
    = risk <$> run Samples.read_csv_2020 [(2020, 12, 7)] ["DSM"]
  ∧ ∃ df, load_selected Samples.read_csv_2020 [(2020, 12, 7)] = Ok df
          ∧ max_std_of df = Ok (Fin 50000)
          ∧ ("Risque < 1h", "red", "🔴")
            = risk_text_color_emoji (classify (Fin 50000)).
Proof.
  pose proof (risk_ignores_station_selection Samples.read_csv_2020
                [(2020, 12, 7)] ["BON"] ["DSM"]) as [Heq Hmax].
  split; [exact Heq|].
  apply (Hmax {| df_filtered := select (str_isin "station" ["BON"])
                                  (setitem "eruption_date" object
                                     (λ _, Date (2020, 12, 7)) Samples.df_2020);
                 max_std := Fin 50000;
                 risk := ("Risque < 1h", "red", "🔴") |}).
  vm_compute. reflexivity.
Defined.

(** The tier shown is not the tier of the displayed stations: on the sample
    file, with the quiet station alone selected, the panel says "Risque <
    1h" while the selected rows alone would give "Pas de risque". *)
Example risk_not_from_filtered_rows :
  ∃ p, run Samples.read_csv_2020 [(2020, 12, 7)] ["BON"] = Ok p
       ∧ risk p = ("Risque < 1h", "red", "🔴")
       ∧ risk_of_filtered p = Ok ("Pas de risque", "green", "🟢").
Proof. eexists. split; [by vm_compute|]. by vm_compute. Qed.

End app_risk.

(** ** Hours and bins: arithmetic *)

Section bins.
Import Pandas.

Lemma total_hours_eq (dt : Z) : (total_hours dt == dt # 3600)%Q.
Proof. apply Qred_correct. Qed.

Lemma total_hours_le (a b : Z) : a ≤ b → (total_hours a <= total_hours b)%Q.
Proof.
  intros Hab. rewrite !total_hours_eq. unfold Qle; simpl. lia.
Qed.

Lemma total_hours_lt (a b : Z) : a < b → (total_hours a < total_hours b)%Q.
Proof.
  intros Hab. rewrite !total_hours_eq. unfold Qlt; simpl. lia.
Qed.

Lemma total_hours_ge_m80 (dt : Z) :
  Qle_bool (-80) (total_hours dt) = true ↔ -288000 ≤ dt.
Proof.
  rewrite Qle_bool_iff, total_hours_eq. unfold Qle; simpl. lia.
Qed.

Lemma total_hours_le_24 (dt : Z) :
  Qle_bool (total_hours dt) 24 = true ↔ dt ≤ 86400.
Proof.
  rewrite Qle_bool_iff, total_hours_eq. unfold Qle; simpl. lia.
Qed.

Lemma normalize_mod (t : Z) : normalize t mod 600 = 0.
Proof.
  unfold normalize. replace (86400 * (t / 86400)) with (144 * (t / 86400) * 600) by lia.
  apply Z.mod_mul. lia.
Qed.

Lemma bin_edge_le (origin t : Z) : bin_edge origin t ≤ t.
Proof. unfold bin_edge. pose proof (Z.mod_pos_bound (t - origin) 600). lia. Qed.

Lemma bin_edge_gt (origin t : Z) : t - 600 < bin_edge origin t.
Proof. unfold bin_edge. pose proof (Z.mod_pos_bound (t - origin) 600). lia. Qed.

Lemma bin_edge_div (origin t : Z) :
  bin_edge origin t = origin + 600 * ((t - origin) / 600).
Proof. unfold bin_edge. pose proof (Z.div_mod (t - origin) 600). lia. Qed.

Lemma bin_edge_mono (origin t t' : Z) :
  t ≤ t' → bin_edge origin t ≤ bin_edge origin t'.
Proof.
  intros Htt. rewrite !bin_edge_div.
  assert ((t - origin) / 600 ≤ (t' - origin) / 600) by (apply Z.div_le_mono; lia).
  lia.
Qed.

(** With the origin at a midnight, the bins are the multiples of 600 s. *)
Lemma bin_edge_floor (origin t : Z) :
  origin mod 600 = 0 → bin_edge origin t = 600 * (t / 600).
Proof.
  intros Ho. unfold bin_edge.
  assert ((t - origin) mod 600 = t mod 600) as ->.
  { rewrite Zminus_mod, Ho, Z.sub_0_r. apply Z.mod_mod. lia. }
  pose proof (Z.div_mod t 600). lia.
Qed.

(** A bin is the half-open interval that starts at its label. *)
Lemma bin_edge_iff (origin t label : Z) :
  origin mod 600 = 0 → label mod 600 = 0 →
  bin_edge origin t = label ↔ label ≤ t < label + 600.
Proof.
  intros Ho Hl. rewrite (bin_edge_floor origin t Ho).
  apply Z.mod_divide in Hl as [k ->]; [|lia].
  split.
  - intros Heq. assert (t / 600 = k) as <- by lia.
    pose proof (Z.div_mod t 600). pose proof (Z.mod_pos_bound t 600). lia.
  - intros [Hlo Hhi].
    assert (t / 600 = k); [|lia].
    symmetry. apply (Z.div_unique t 600 k (t - k * 600)); lia.
Qed.

Lemma minimum_le (t0 : Z) (ts : list Z) (t : Z) :
  t ∈ t0 :: ts → minimum t0 ts ≤ t.
Proof.
  unfold minimum. induction ts as [|a ts IH]; simpl.
  - intros Hin. apply list_elem_of_singleton in Hin. lia.
  - intros Hin. apply elem_of_cons in Hin as [Heq|Hin].
    + assert (foldr Z.min t0 ts ≤ t) by (apply IH; rewrite Heq; left). lia.
    + apply elem_of_cons in Hin as [Heq|Hin]; [lia|].
      assert (foldr Z.min t0 ts ≤ t) by (apply IH; by right). lia.
Qed.

Lemma maximum_ge (t0 : Z) (ts : list Z) (t : Z) :
  t ∈ t0 :: ts → t ≤ maximum t0 ts.
Proof.
  unfold maximum. induction ts as [|a ts IH]; simpl.
  - intros Hin. apply list_elem_of_singleton in Hin. lia.
  - intros Hin. apply elem_of_cons in Hin as [Heq|Hin].
    + assert (t ≤ foldr Z.max t0 ts) by (apply IH; rewrite Heq; left). lia.
    + apply elem_of_cons in Hin as [Heq|Hin]; [lia|].
      assert (t ≤ foldr Z.max t0 ts) by (apply IH; by right). lia.
Qed.

Lemma minimum_in (t0 : Z) (ts : list Z) : minimum t0 ts ∈ t0 :: ts.
Proof.
  unfold minimum. induction ts as [|a ts IH]; simpl; [left|].
  destruct (Z.min_spec a (foldr Z.min t0 ts)) as [[_ ->]|[_ ->]].
  - right; left.
  - apply elem_of_cons in IH as [->|IH]; [left|do 2 right; done].
Qed.

Lemma maximum_in (t0 : Z) (ts : list Z) : maximum t0 ts ∈ t0 :: ts.
Proof.
  unfold maximum. induction ts as [|a ts IH]; simpl; [left|].
  destruct (Z.max_spec a (foldr Z.max t0 ts)) as [[_ ->]|[_ ->]].
  - apply elem_of_cons in IH as [->|IH]; [left|do 2 right; done].
  - right; left.
Qed.

End bins.

(** ** The aligned frame: rows and columns *)

Section aligned_frame.
Import Pandas.

Lemma in_filter {A} (p : A → bool) (l : list A) (a : A) :
  a ∈ List.filter p l ↔ a ∈ l ∧ p a = true.
Proof. rewrite !list_elem_of_In. apply filter_In. Qed.

Lemma get_time_insert_ne (c c' : string) (v : cell) (r : gmap string cell) :
  c' ≠ c → get_time c (<[c' := v]> r) = get_time c r.
Proof. intros Hne. unfold get_time. by rewrite lookup_insert_ne. Qed.

(** The rows that reach the resampling step lie in the window
    [t0 - 80h, t0 + 24h]. *)
Lemma windowed_time (t0 : Z) (df : DataFrame) (r : gmap string cell) :
  r ∈ rows (windowed t0 df) →
  ∃ t, get_time "time_min" r = Some t ∧ t0 - 288000 ≤ t ≤ t0 + 86400.
Proof.
  unfold windowed, select, setitem. cbn [rows].
  intros Hin. apply in_filter in Hin as [Hin Hmask].
  apply list_elem_of_fmap in Hin as (r0 & -> & _).
  unfold num_between, get_num in Hmask. rewrite lookup_insert_eq in Hmask.
  rewrite get_time_insert_ne by done.
  unfold hours_since in Hmask.
  destruct (get_time "time_min" r0) as [t|]; [|done].
  apply andb_true_iff in Hmask as [Hge Hle]. cbn [float_ge float_le] in *.
  apply total_hours_ge_m80 in Hge. apply total_hours_le_24 in Hle.
  exists t. split; [done|lia].
Qed.

Lemma windowed_times (t0 : Z) (df : DataFrame) (t : Z) :
  t ∈ index_times "time_min" (rows (windowed t0 df)) →
  t0 - 288000 ≤ t ≤ t0 + 86400.
Proof.
  unfold index_times. intros Hin.
  apply list_elem_of_omap in Hin as (r & Hr & Ht).
  destruct (windowed_time t0 df r Hr) as (t' & Ht' & Hbound).
  rewrite Ht in Ht'. by injection Ht' as ->.
Qed.

(** The labels are consecutive multiples of 600 s, from the bin of the
    earliest timestamp to the bin of the latest. *)
Lemma bin_labels_spec (times : list Z) :
  ∃ lo n,
    bin_labels times = (λ k, lo + 600 * k) <$> seqZ 0 n
    ∧ lo mod 600 = 0
    ∧ bin_origin times mod 600 = 0
    ∧ ∀ a b, (∀ t, t ∈ times → a ≤ t ≤ b) →
             ∀ k, 0 ≤ k < n → a - 600 < lo + 600 * k ≤ b.
Proof.
  destruct times as [|t0 ts].
  - exists 0, 0. split; [done|]. split; [done|]. split; [done|].
    intros a b _ k Hk. lia.
  - set (origin := bin_origin (t0 :: ts)).
    assert (origin mod 600 = 0) as Ho by apply normalize_mod.
    set (lo := bin_edge origin (minimum t0 ts)).
    set (hi := bin_edge origin (maximum t0 ts)).
    exists lo, ((hi - lo) / 600 + 1).
    split; [done|].
    assert (lo mod 600 = 0) as Hlo.
    { unfold lo. rewrite (bin_edge_floor _ _ Ho).
      rewrite Z.mul_comm. apply Z.mod_mul. lia. }
    split; [done|]. split; [done|].
    intros a b Hab k Hk.
    pose proof (Hab _ (minimum_in t0 ts)) as Hmin.
    pose proof (Hab _ (maximum_in t0 ts)) as Hmax.
    pose proof (bin_edge_gt origin (minimum t0 ts)) as Hgt.
    pose proof (bin_edge_le origin (maximum t0 ts)) as Hle.
    fold lo in Hgt. fold hi in Hle.
    assert (hi = 600 * (maximum t0 ts / 600)) as Hhi
      by apply (bin_edge_floor _ _ Ho).
    assert (lo = 600 * (minimum t0 ts / 600)) as Hlo'
      by apply (bin_edge_floor _ _ Ho).
    assert ((hi - lo) / 600 = maximum t0 ts / 600 - minimum t0 ts / 600) as Hdiv.
    { rewrite Hhi, Hlo'.
      replace (600 * (maximum t0 ts / 600) - 600 * (minimum t0 ts / 600))
        with ((maximum t0 ts / 600 - minimum t0 ts / 600) * 600) by lia.
      apply Z.div_mul. lia. }
    rewrite Hdiv in Hk. lia.
Qed.

Lemma set_column_names (c : string) (dt : dtype) (cols : list (string * dtype))
    (c' : string) :
  c' ∈ (set_column c dt cols).*1 ↔ c' = c ∨ c' ∈ cols.*1.
Proof.
  unfold set_column. case_bool_decide as Hc.
  - assert (((λ cd : string * dtype,
               if bool_decide (cd.1 = c) then (c, dt) else cd) <$> cols).*1
            = cols.*1) as ->.
    { clear Hc. induction cols as [|[a d] cols IH]; [done|].
      cbn [fmap list_fmap fst]. rewrite IH. f_equal.
      destruct (bool_decide (a = c)) eqn:Hac; [|done].
      by apply bool_decide_eq_true in Hac. }
    split; [by right|]. by intros [->|?].
  - rewrite fmap_app, elem_of_app. cbn [fmap list_fmap fst].
    rewrite list_elem_of_singleton. tauto.
Qed.

Lemma set_column_elem (c : string) (dt : dtype) (cols : list (string * dtype))
    (cd : string * dtype) :
  cd ∈ set_column c dt cols → cd.1 = c ∨ cd ∈ cols.
Proof.
  unfold set_column. case_bool_decide as Hc.
  - intros Hin. apply list_elem_of_fmap in Hin as (ad & -> & Hin).
    destruct (bool_decide (ad.1 = c)); [by left|by right].
  - rewrite elem_of_app, list_elem_of_singleton. intros [Hin | ->]; [by right|by left].
Qed.

Lemma numeric_columns_elem (index c : string) (df : DataFrame) :
  c ∈ numeric_columns index df → (c, float64) ∈ columns df.
Proof.
  unfold numeric_columns. intros Hin.
  apply list_elem_of_fmap in Hin as (ad & -> & Hin).
  destruct ad as [a d].
  apply in_filter in Hin as [Hin Hp]. cbn [fst snd] in *.
  apply andb_true_iff in Hp as [Hd _]. apply bool_decide_eq_true in Hd.
  by subst d.
Qed.

Lemma windowed_numeric_station (t0 : Z) (df : DataFrame) :
  ("station", float64) ∉ columns df →
  "station" ∉ numeric_columns "time_min" (windowed t0 df).
Proof.
  intros Hno Hin. apply numeric_columns_elem in Hin.
  unfold windowed, select, setitem in Hin. cbn [columns] in Hin.
  apply set_column_elem in Hin as [Heq|Hin]; [done|by apply Hno].
Qed.

Lemma set_column_keeps (c : string) (dt : dtype) (cols : list (string * dtype))
    (cd : string * dtype) :
  cd ∈ cols → cd.1 ≠ c → cd ∈ set_column c dt cols.
Proof.
  intros Hin Hne. unfold set_column. case_bool_decide as Hc.
  - apply list_elem_of_fmap. exists cd. split; [|done].
    destruct (bool_decide (cd.1 = c)) eqn:Hcd; [|done].
    by apply bool_decide_eq_true in Hcd.
  - apply elem_of_app. by left.
Qed.

Lemma numeric_columns_intro (index c : string) (df : DataFrame) :
  (c, float64) ∈ columns df → c ≠ index → c ∈ numeric_columns index df.
Proof.
  intros Hin Hne. unfold numeric_columns.
  apply list_elem_of_fmap. exists (c, float64). split; [done|].
  apply in_filter. split; [done|]. cbn [fst snd].
  apply andb_true_iff. split; [by apply bool_decide_eq_true|].
  apply negb_true_iff. by apply bool_decide_eq_false.
Qed.

Lemma normalize_bin_origin (times : list Z) : bin_origin times mod 600 = 0.
Proof. destruct times; [done|apply normalize_mod]. Qed.

Lemma in_bin_bucket (index : string) (origin label : Z) (r : gmap string cell) :
  origin mod 600 = 0 → label mod 600 = 0 →
  in_bin index origin label r = in_bucket index label r.
Proof.
  intros Ho Hl. unfold in_bin, in_bucket.
  destruct (get_time index r) as [t|]; [|done].
  pose proof (bin_edge_iff origin t label Ho Hl) as Hiff.
  destruct (bin_edge origin t =? label) eqn:Heq.
  - apply Z.eqb_eq in Heq. apply Hiff in Heq. symmetry.
    apply andb_true_iff. split; [apply Z.leb_le|apply Z.ltb_lt]; lia.
  - apply Z.eqb_neq in Heq. symmetry. apply not_true_iff_false.
    intros Hb. apply andb_true_iff in Hb as [H1 H2].
    apply Z.leb_le in H1. apply Z.ltb_lt in H2. apply Heq, Hiff. lia.
Qed.

Lemma list_to_map_fn (g : string → cell) (nums : list string) (c : string) :
  c ∈ nums →
  (list_to_map ((λ c0, (c0, g c0)) <$> nums) : gmap string cell) !! c
  = Some (g c).
Proof.
  induction nums as [|a nums IH]; intros Hin.
  - by apply elem_of_nil in Hin.
  - cbn [fmap list_fmap list_to_map foldr].
    destruct (decide (a = c)) as [->|Hne].
    + apply lookup_insert_eq.
    + rewrite lookup_insert_ne by done. apply IH.
      apply elem_of_cons in Hin as [->|Hin]; done.
Qed.

(** A numeric column of a bin row holds the mean over the bucket
    [label, label + 10 min). *)
Lemma bin_row_mean (index : string) (nums : list string)
    (rs : list (gmap string cell)) (origin label : Z) (c : string) :
  c ∈ nums → origin mod 600 = 0 → label mod 600 = 0 →
  c ≠ index →
  bin_row index nums rs origin label !! c
  = Some (Num (mean (get_num c <$> List.filter (in_bucket index label) rs))).
Proof.
  intros Hc Ho Hl Hne. unfold bin_row. rewrite lookup_insert_ne by done.
  rewrite (list_to_map_fn
    (λ c0, Num (mean (get_num c0 <$> List.filter (in_bin index origin label) rs)))
    nums c Hc).
  do 3 f_equal. apply (f_equal (fmap (get_num c))).
  apply filter_ext. intros r. by apply in_bin_bucket.
Qed.

Lemma bin_row_time (index : string) (nums : list string)
    (rs : list (gmap string cell)) (origin label : Z) :
  bin_row index nums rs origin label !! index = Some (Time (Some label)).
Proof. unfold bin_row. apply lookup_insert_eq. Qed.

Lemma bin_row_other (index : string) (nums : list string)
    (rs : list (gmap string cell)) (origin label : Z) (c : string) :
  c ≠ index → c ∉ nums → bin_row index nums rs origin label !! c = None.
Proof.
  intros Hne Hnum. unfold bin_row. rewrite lookup_insert_ne by done.
  apply not_elem_of_list_to_map_1.
  rewrite <- list_fmap_compose.
  assert ((fst ∘ (λ c0, (c0, Num (mean (get_num c0 <$>
             List.filter (in_bin index origin label) rs))))) <$> nums = nums)
    as ->; [|done].
  clear. induction nums as [|a l IH]; [done|]. cbn [fmap list_fmap]. by rewrite IH.
Qed.

Lemma aligned_rows (t0 : Z) (name color : string) (df : DataFrame) :
  ∃ out,
    rows (aligned t0 name color df)
      = out <$> bin_labels (index_times "time_min" (rows (windowed t0 df)))
    ∧ ∀ label, aligned_row t0 name color label (out label)
               ∧ (("station", float64) ∉ columns df → out label !! "station" = None)
               ∧ (label mod 600 = 0 →
                  ∀ c, (c, float64) ∈ columns df →
                       c ∉ ["time_min"; "hours_to_eruption"; "eruption"; "color"] →
                       out label !! c = Some (bucket_mean c label (windowed t0 df))).
Proof.
  set (w := windowed t0 df).
  set (B := bin_row "time_min" (numeric_columns "time_min" w) (rows w)
              (bin_origin (index_times "time_min" (rows w)))).
  exists (λ label,
    <["color" := Str color]>
      (<["eruption" := Str name]>
         (<["hours_to_eruption" := hours_since "time_min" t0 (B label)]> (B label)))).
  split.
  - unfold aligned, setitem, resample_10min_mean. cbn [rows].
    fold (windowed t0 df). fold w. fold B.
    by rewrite <- !list_fmap_compose.
  - intros label.
    assert (B label !! "time_min" = Some (Time (Some label))) as Htime
      by apply bin_row_time.
    split; [repeat split|].
    + by rewrite !lookup_insert_ne.
    + rewrite !lookup_insert_ne by done. rewrite lookup_insert_eq.
      unfold hours_since, get_time. by rewrite Htime.
    + rewrite lookup_insert_ne by done. apply lookup_insert_eq.
    + apply lookup_insert_eq.
    + split.
      * intros Hno. rewrite !lookup_insert_ne by done.
        apply bin_row_other; [done|]. by apply windowed_numeric_station.
      * intros Hmod c Hc Hnot.
        assert (c ≠ "time_min" ∧ c ≠ "hours_to_eruption"
                ∧ c ≠ "eruption" ∧ c ≠ "color") as (H1 & H2 & H3 & H4).
        { repeat split; intros ->; apply Hnot; repeat constructor. }
        rewrite !lookup_insert_ne by done.
        unfold B. apply bin_row_mean; [|by apply normalize_bin_origin|done|done].
        apply numeric_columns_intro; [|done].
        unfold w, windowed, select, setitem. cbn [columns].
        by apply set_column_keeps.
Qed.

Lemma aligned_columns_station (t0 : Z) (name color : string) (df : DataFrame) :
  ("station", float64) ∉ columns df →
  "station" ∉ (columns (aligned t0 name color df)).*1.
Proof.
  intros Hno. unfold aligned, setitem, resample_10min_mean. cbn [columns].
  fold (windowed t0 df).
  rewrite !set_column_names. cbn [fmap list_fmap fst].
  intros [?|[?|[?|Hin]]]; try done.
  apply elem_of_cons in Hin as [?|Hin]; [done|].
  rewrite <- list_fmap_compose in Hin.
  apply list_elem_of_fmap in Hin as (c & Hc & Hin).
  cbn in Hc. subst c.
  by apply (windowed_numeric_station t0 df Hno).
Qed.

(** Where a row of an aligned frame comes from: a label of the resampling,
    on the 10-minute grid, less than 10 minutes before the window and not
    after it; its numeric columns hold the means over the bucket that
    starts at the label. *)
Lemma aligned_frame_row (t0 : Z) (name color : string) (df : DataFrame)
    (r : gmap string cell) :
  r ∈ rows (aligned t0 name color df) →
  ∃ label,
    aligned_row t0 name color label r
    ∧ label mod 600 = 0
    ∧ t0 - 288000 - 600 < label ≤ t0 + 86400
    ∧ (("station", float64) ∉ columns df → r !! "station" = None)
    ∧ ∀ c, (c, float64) ∈ columns df →
           c ∉ ["time_min"; "hours_to_eruption"; "eruption"; "color"] →
           r !! c = Some (bucket_mean c label (windowed t0 df)).
Proof.
  intros Hin.
  destruct (aligned_rows t0 name color df) as (out & Hrows & Hout).
  rewrite Hrows in Hin.
  apply list_elem_of_fmap in Hin as (label & -> & Hlabel).
  destruct (bin_labels_spec (index_times "time_min" (rows (windowed t0 df))))
    as (lo & n & Hlabels & Hlo & _ & Hbound).
  rewrite Hlabels in Hlabel.
  apply list_elem_of_fmap in Hlabel as (k & -> & Hk).
  apply elem_of_seqZ in Hk.
  assert ((lo + 600 * k) mod 600 = 0) as Hmod.
  { rewrite Z.add_mod, Hlo by lia.
    rewrite (Z.mul_comm 600 k), Z.mod_mul by lia. done. }
  destruct (Hout (lo + 600 * k)) as (Hrow & Hsta & Hmean).
  exists (lo + 600 * k).
  split; [done|]. split; [done|].
  split; [|split; [done|by apply Hmean]].
  assert (t0 - 288000 - 600 < lo + 600 * k ≤ t0 + 86400); [|lia].
  apply (Hbound (t0 - 288000) (t0 + 86400)); [|lia].
  intros t Ht. by apply windowed_times in Ht.
Qed.

(** The rows of an aligned frame, by position: row [k] carries the label
    [lo + k * 10 min]. *)
Lemma aligned_rows_indexed (t0 : Z) (name color : string) (df : DataFrame) :
  ∃ lo n out,
    rows (aligned t0 name color df) = (λ k, out (lo + 600 * k)) <$> seqZ 0 n
    ∧ ∀ label, aligned_row t0 name color label (out label).
Proof.
  destruct (aligned_rows t0 name color df) as (out & Hrows & Hout).
  destruct (bin_labels_spec (index_times "time_min" (rows (windowed t0 df))))
    as (lo & n & Hlabels & _).
  exists lo, n, out. split; [|apply Hout].
  by rewrite Hrows, Hlabels, <- list_fmap_compose.
Qed.

Lemma aligned_row_reindex (cols : list (string * dtype)) (t0 : Z)
    (name color : string) (label : Z) (r : gmap string cell) :
  aligned_row t0 name color label r →
  aligned_row t0 name color label (reindex cols r).
Proof.
  intros (Ht & Hh & He & Hc).
  repeat split; unfold reindex; by apply lookup_union_Some_l.
Qed.

Lemma Forall2_elem_of_r {A B} (P : A → B → Prop) (l : list A) (k : list B)
    (b : B) :
  Forall2 P l k → b ∈ k → ∃ a, a ∈ l ∧ P a b.
Proof.
  induction 1 as [|a b' l k Hab _ IH]; intros Hin.
  - by apply elem_of_nil in Hin.
  - apply elem_of_cons in Hin as [->|Hin].
    + exists a. split; [left|done].
    + destruct (IH Hin) as (a' & Ha' & HP). exists a'. split; [by right|done].
Qed.

End aligned_frame.

(** ** Concatenation *)

Section concat_facts.
Import Pandas.

Lemma na_row_names (cols : list (string * dtype)) :
  ((λ cd : string * dtype, (cd.1, na cd.2)) <$> cols).*1 = cols.*1.
Proof.
  induction cols as [|cd cols IH]; [done|]. cbn [fmap list_fmap fst].
  f_equal. exact IH.
Qed.

Lemma reindex_lookup_Some (cols : list (string * dtype)) (r : gmap string cell)
    (c : string) (v : cell) :
  r !! c = Some v → reindex cols r !! c = Some v.
Proof. intros Hr. unfold reindex. by apply lookup_union_Some_l. Qed.

Lemma reindex_lookup_None (cols : list (string * dtype)) (r : gmap string cell)
    (c : string) :
  r !! c = None → c ∉ cols.*1 → reindex cols r !! c = None.
Proof.
  intros Hr Hc. unfold reindex. apply lookup_union_None_2; [done|].
  unfold na_row. apply not_elem_of_list_to_map_1. by rewrite na_row_names.
Qed.

Lemma add_columns_names (acc cols : list (string * dtype)) (c : string) :
  c ∈ (add_columns acc cols).*1 → c ∈ acc.*1 ∨ c ∈ cols.*1.
Proof.
  unfold add_columns. rewrite fmap_app, elem_of_app.
  intros [Hin|Hin]; [by left|right].
  apply list_elem_of_fmap in Hin as (cd & -> & Hin).
  apply in_filter in Hin as [Hin _].
  apply list_elem_of_fmap. by exists cd.
Qed.

Lemma union_columns_names (frames : list DataFrame) (c : string) :
  c ∈ (union_columns frames).*1 → ∃ f, f ∈ frames ∧ c ∈ (columns f).*1.
Proof.
  unfold union_columns.
  assert (∀ acc, c ∈ (foldl (λ acc f, add_columns acc (columns f)) acc frames).*1 →
                 c ∈ acc.*1 ∨ ∃ f, f ∈ frames ∧ c ∈ (columns f).*1) as Hgen.
  { induction frames as [|f frames IH]; intros acc; cbn [foldl]; [by left|].
    intros Hin. apply IH in Hin as [Hin|(f' & Hf' & Hin)].
    - apply add_columns_names in Hin as [Hin|Hin]; [by left|].
      right. exists f. split; [left|done].
    - right. exists f'. split; [by right|done]. }
  intros Hin. apply Hgen in Hin as [Hin|Hin]; [|done].
  by apply elem_of_nil in Hin.
Qed.

Lemma concat_rows (frames : list DataFrame) (r : gmap string cell) :
  r ∈ rows (concat frames) →
  ∃ f r0, f ∈ frames ∧ r0 ∈ rows f ∧ r = reindex (union_columns frames) r0.
Proof.
  unfold concat. cbn [rows]. rewrite list_elem_of_In.
  intros Hin. apply in_flat_map in Hin as (f & Hf & Hin).
  apply list_elem_of_In in Hf. apply list_elem_of_In in Hin.
  apply list_elem_of_fmap in Hin as (r0 & -> & Hr0).
  by exists f, r0.
Qed.

End concat_facts.

(** ** Alignment in src/dashboard_v2/app.py: the frames *)

Section v2_frames.
Import Py Streamlit Pandas DashboardV2.
Context (fs : FileSystem).

Lemma try_body_frame (name : string) (info : eruption_info) (f : DataFrame) :
  eruptions !! name = Some info →
  result (try_body fs name info) = Ok (Some f) →
  frame_of fs name f.
Proof.
  intros Hinfo. unfold try_body.
  destruct (read_preprocessed fs (file info)) as [df|e] eqn:Hread; [|done].
  rewrite st_lift_ok_bind.
  unfold select_time_between.
  destruct (column_dtype "time_min" df) as [[]|]; try done.
  rewrite st_lift_ok_bind.
  destruct (empty _).
  - by rewrite st_emit_bind.
  - destruct (color_map !! name) as [color|] eqn:Hcolor.
    + rewrite (getitem_Some _ _ _ Hcolor), st_lift_ok_bind.
      intros [= <-]. by exists info, df, color.
    + by rewrite (getitem_None _ _ Hcolor).
Qed.

Lemma loop_body_frames (name : string) (fr : list DataFrame) :
  result (loop_body fs name []) = Ok fr →
  fr = [] ∨ ∃ f, fr = [f] ∧ frame_of fs name f.
Proof.
  unfold loop_body.
  destruct (eruptions !! name) as [info|] eqn:Hinfo.
  - rewrite (getitem_Some _ _ _ Hinfo), st_lift_ok_bind.
    destruct (negb (path_exists fs (file info))).
    + rewrite st_emit_bind. intros [= <-]. by left.
    + rewrite st_result_bind.
      pose proof (try_body_frame name info) as Hframe.
      destruct (try_body fs name info) as [w [[f|]|e]]; cbn.
      * intros [= <-]. right. exists f. split; [done|]. by apply Hframe.
      * intros [= <-]. by left.
      * intros [= <-]. by left.
  - by rewrite (getitem_None _ _ Hinfo).
Qed.

Lemma loop_frames (selected_list : list string) (frames : list DataFrame) :
  result (loop fs selected_list []) = Ok frames →
  ∃ names, names `sublist_of` selected_list ∧ Forall2 (frame_of fs) names frames.
Proof.
  revert frames. induction selected_list as [|name rest IH]; intros frames.
  - intros [= <-]. exists []. by split.
  - cbn [loop]. rewrite st_result_bind.
    destruct (result (loop_body fs name [])) as [fr|e] eqn:Hbody; [|done].
    rewrite (loop_acc fs rest fr). cbn [result snd].
    destruct (result (loop fs rest [])) as [fr'|e] eqn:Hrest; [|done].
    intros [= <-].
    destruct (IH fr' eq_refl) as (names & Hsub & Hall).
    apply loop_body_frames in Hbody as [->|(f & -> & Hf)].
    + exists names. split; [by apply sublist_cons|done].
    + exists (name :: names). split; [by apply sublist_skip|].
      by constructor.
Qed.

(** The returned table is made of the frames of a sub-selection, in the
    order of the selection. *)
Lemma load_frames (selected_list : list string) (df_compare : DataFrame) :
  result (load_aligned_selected fs selected_list) = Ok df_compare →
  ∃ names frames,
    names `sublist_of` selected_list
    ∧ Forall2 (frame_of fs) names frames
    ∧ columns df_compare = union_columns frames
    ∧ rows df_compare
      = flat_map (λ f, reindex (union_columns frames) <$> rows f) frames.
Proof.
  rewrite load_result.
  destruct (result (loop fs selected_list [])) as [frames|e] eqn:Hloop; [|done].
  apply loop_frames in Hloop as (names & Hsub & Hall).
  intros Hdf. exists names, frames. split; [done|]. split; [done|].
  destruct frames; injection Hdf as <-; by split.
Qed.

End v2_frames.

(** ** Alignment in src/dashboard_v2/app.py: the rows of the table *)

Section v2_rows.
Import Py Streamlit Pandas DashboardV2.
Context (fs : FileSystem).

(** A row of the frame of [name]. *)
Lemma frame_row (name : string) (f : DataFrame) (r : gmap string cell) :
  frame_of fs name f → r ∈ rows f →
  ∃ info df color label,
    eruptions !! name = Some info
    ∧ read_preprocessed fs (file info) = Ok df
    ∧ color_map !! name = Some color
    ∧ aligned_row (time info) name color label r
    ∧ label mod 600 = 0
    ∧ time info - 288000 - 600 < label ≤ time info + 86400
    ∧ (("station", float64) ∉ columns df → r !! "station" = None)
    ∧ ∀ c, (c, float64) ∈ columns df →
           c ∉ ["time_min"; "hours_to_eruption"; "eruption"; "color"] →
           r !! c = Some (bucket_mean c label
                            (windowed (time info) (first_window (time info) df))).
Proof.
  intros (info & df & color & Hinfo & Hread & Hcolor & ->) Hin.
  apply aligned_frame_row in Hin
    as (label & Hrow & Hmod & Hbound & Hsta & Hmean).
  by exists info, df, color, label.
Qed.

Lemma load_row (selected_list : list string) (df_compare : DataFrame)
    (r : gmap string cell) :
  result (load_aligned_selected fs selected_list) = Ok df_compare →
  r ∈ rows df_compare →
  ∃ name info df color label,
    name ∈ selected_list
    ∧ eruptions !! name = Some info
    ∧ read_preprocessed fs (file info) = Ok df
    ∧ color_map !! name = Some color
    ∧ aligned_row (time info) name color label r
    ∧ label mod 600 = 0
    ∧ time info - 288000 - 600 < label ≤ time info + 86400
    ∧ ∀ c, (c, float64) ∈ columns df →
           c ∉ ["time_min"; "hours_to_eruption"; "eruption"; "color"] →
           r !! c = Some (bucket_mean c label
                            (windowed (time info) (first_window (time info) df))).
Proof.
  intros Hload Hin.
  apply load_frames in Hload as (names & frames & Hsub & Hall & _ & Hrows).
  rewrite Hrows, list_elem_of_In in Hin.
  apply in_flat_map in Hin as (f & Hf & Hin).
  apply list_elem_of_In in Hf. apply list_elem_of_In in Hin.
  apply list_elem_of_fmap in Hin as (r0 & -> & Hr0).
  destruct (Forall2_elem_of_r _ _ _ _ Hall Hf) as (name & Hname & Hframe).
  destruct (frame_row name f r0 Hframe Hr0)
    as (info & df & color & label & Hinfo & Hread & Hcolor & Hrow & Hmod
        & Hbound & _ & Hmean).
  exists name, info, df, color, label.
  split; [by apply (sublist_subseteq _ _ Hsub)|].
  repeat (split; [done|]).
  split; [by apply aligned_row_reindex|].
  split; [done|]. split; [done|].
  intros c Hc Hnot. apply reindex_lookup_Some. by apply Hmean.
Qed.

(** X2: what does hold of the hours of the table: every value is at most 24
    and more than -80 h 10 min; it is at least -80 for an eruption whose
    instant falls on the 10-minute grid. *)
Lemma hours_within_ten_minutes_of_window (selected_list : list string)
    (df_compare : DataFrame) (r : gmap string cell) :
  result (load_aligned_selected fs selected_list) = Ok df_compare →
  r ∈ rows df_compare →
  ∃ name info h,
    name ∈ selected_list
    ∧ eruptions !! name = Some info
    ∧ r !! "eruption" = Some (Str name)
    ∧ r !! "hours_to_eruption" = Some (Num (Fin h))
    ∧ (-80 - (1 # 6) < h)%Q ∧ (h <= 24)%Q
    ∧ (time info mod 600 = 0 → (-80 <= h)%Q).
Proof.
  intros Hload Hin.
  destruct (load_row _ _ _ Hload Hin)
    as (name & info & df & color & label & Hname & Hinfo & _ & _ & Hrow & Hmod
        & Hbound & _).
  destruct Hrow as (_ & Hh & He & _).
  exists name, info, (total_hours (label - time info)).
  repeat (split; [done|]).
  rewrite !total_hours_eq. unfold Qlt, Qle; simpl.
  split; [lia|]. split; [lia|].
  intros Ht.
  apply Z.mod_divide in Hmod as [a Ha]; [|lia].
  apply Z.mod_divide in Ht as [b Hb]; [|lia].
  lia.
Qed.

End v2_rows.

(** ** Alignment in src/dashboard_v2/app.py: the claims on rows *)

Section v2_row_claims.
Import Py Streamlit Pandas DashboardV2.

(** C1 fails on the eruption of 11 Sep 2016, 04:05 UTC, whose instant is not
    on the 10-minute grid: the rows of 2016-09-07 20:05 and 20:06, exactly
    80 h and 79 h 59 min before the eruption, pass the filter
    [-80 <= hours_to_eruption <= 24], fall into the bin that starts at
    20:00, and the hours recomputed from that label are -80 - 5/60, below
    -80. *)
Theorem hours_below_window_2016 :
  ∃ df r h,
    result (load_aligned_selected Samples.fs_2016 [Samples.name_2016]) = Ok df
    ∧ rows df !! 0%nat = Some r
    ∧ r !! "time_min" = Some (Time (Some (to_datetime 2016 9 7 20 0 0)))
    ∧ r !! "amplitude_mean" = Some (Num (Fin 20))
    ∧ r !! "hours_to_eruption" = Some (Num (Fin h))
    ∧ (h == -80 - (5 # 60))%Q
    ∧ (h < -80)%Q.
Proof.
  eexists _, _, _.
  split; [vm_compute; reflexivity|].
  split; [vm_compute; reflexivity|].
  split; [vm_compute; reflexivity|].
  split; [vm_compute; reflexivity|].
  split; [vm_compute; reflexivity|].
  split; by vm_compute.
Qed.

(** C2, as stated, fails: on the same input the first output row has the
    label 20:00, its bucket [20:00, 20:10) has the midpoint 20:05, which is
    80 h before the eruption, but the recomputed value is that of the label,
    -80 - 5/60. *)
Lemma hours_not_from_bucket_midpoint :
  ∃ df r label h,
    result (load_aligned_selected Samples.fs_2016 [Samples.name_2016]) = Ok df
    ∧ r ∈ rows df
    ∧ r !! "time_min" = Some (Time (Some label))
    ∧ r !! "hours_to_eruption" = Some (Num (Fin h))
    ∧ (total_hours (bucket_midpoint label - to_datetime 2016 9 11 4 5 0) == -80)%Q
    ∧ ¬ (h == total_hours (bucket_midpoint label - to_datetime 2016 9 11 4 5 0))%Q.
Proof.
  eexists _, _, _, _.
  split; [vm_compute; reflexivity|].
  split; [apply list_elem_of_here|].
  split; [vm_compute; reflexivity|].
  split; [vm_compute; reflexivity|].
  split; by vm_compute.
Qed.

(** C2, amended: every row of the returned table belongs to a selected
    eruption of the table, its [time_min] is a label of the 10-minute grid,
    its numeric columns are the means over the rows of the window whose
    timestamp [t] has [label <= t < label + 10 min] (the label is the start
    of the bucket, not its midpoint), and its [hours_to_eruption] is the
    time from the eruption instant to that label, in hours. *)
Theorem hours_recomputed_from_bucket_start (fs : FileSystem)
    (selected_list : list string) (df_compare : DataFrame)
    (r : gmap string cell) :
  result (load_aligned_selected fs selected_list) = Ok df_compare →
  r ∈ rows df_compare →
  ∃ name info df label,
    name ∈ selected_list
    ∧ eruptions !! name = Some info
    ∧ read_preprocessed fs (file info) = Ok df
    ∧ r !! "eruption" = Some (Str name)
    ∧ r !! "time_min" = Some (Time (Some label))
    ∧ label mod 600 = 0
    ∧ (∀ c, (c, float64) ∈ columns df →
            c ∉ ["time_min"; "hours_to_eruption"; "eruption"; "color"] →
            r !! c = Some (bucket_mean c label
                             (windowed (time info) (first_window (time info) df))))
    ∧ r !! "hours_to_eruption"
      = Some (Num (Fin (total_hours (label - time info)))).
Proof.
  intros Hload Hin.
  destruct (load_row fs _ _ _ Hload Hin)
    as (name & info & df & color & label & Hname & Hinfo & Hread & _ & Hrow
        & Hmod & _ & Hmean).
  destruct Hrow as (Ht & Hh & He & _).
  by exists name, info, df, label.
Qed.


End v2_row_claims.

Section v2_row_witnesses.
Import Py Streamlit Pandas DashboardV2.

Lemma hours_recomputed_from_bucket_start_witness :
  ∃ name info df label,
    name ∈ [Samples.name_2016]
    ∧ eruptions !! name = Some info
    ∧ read_preprocessed Samples.fs_2016 (file info) = Ok df
    ∧ Samples.row_2016 !! "eruption" = Some (Str name)
    ∧ Samples.row_2016 !! "time_min" = Some (Time (Some label))
    ∧ label mod 600 = 0
    ∧ (∀ c, (c, float64) ∈ columns df →
            c ∉ ["time_min"; "hours_to_eruption"; "eruption"; "color"] →
            Samples.row_2016 !! c
            = Some (bucket_mean c label
                      (windowed (time info) (first_window (time info) df))))
    ∧ Samples.row_2016 !! "hours_to_eruption"
      = Some (Num (Fin (total_hours (label - time info)))).
Proof.
  apply (hours_recomputed_from_bucket_start Samples.fs_2016
           [Samples.name_2016] Samples.table_2016 Samples.row_2016).
  - vm_compute. reflexivity.
  - apply (list_elem_of_lookup_2 _ 0%nat). vm_compute. reflexivity.
Defined.


End v2_row_witnesses.

(** ** Alignment in src/dashboard_v2/app.py: one eruption's segment *)

Section v2_segment.
Import Py Streamlit Pandas DashboardV2.
Context (fs : FileSystem).

Lemma filter_flat_map {A B} (p : B → bool) (g : A → list B) (l : list A) :
  List.filter p (flat_map g l) = flat_map (λ a, List.filter p (g a)) l.
Proof.
  induction l as [|a l IH]; [done|]. cbn [flat_map].
  by rewrite List.filter_app, IH.
Qed.

Lemma filter_all_in {A} (p : A → bool) (l : list A) :
  (∀ a, a ∈ l → p a = true) → List.filter p l = l.
Proof.
  induction l as [|a l IH]; intros Hp; [done|]. cbn [List.filter].
  rewrite (Hp a) by left. f_equal. apply IH. intros b Hb. apply Hp. by right.
Qed.

Lemma filter_none_in {A} (p : A → bool) (l : list A) :
  (∀ a, a ∈ l → p a = false) → List.filter p l = [].
Proof.
  induction l as [|a l IH]; intros Hp; [done|]. cbn [List.filter].
  rewrite (Hp a) by left. apply IH. intros b Hb. apply Hp. by right.
Qed.

(** The rows of the frame of [n], as they stand in the table, all carry the
    identifier [n]. *)
Lemma frame_segment (cols : list (string * dtype)) (n name : string)
    (f : DataFrame) :
  frame_of fs n f →
  List.filter (str_eq "eruption" name) (reindex cols <$> rows f)
  = if decide (n = name) then reindex cols <$> rows f else [].
Proof.
  intros Hframe.
  assert (∀ r, r ∈ reindex cols <$> rows f →
               str_eq "eruption" name r = bool_decide (n = name)) as Hrows.
  { intros r Hin. apply list_elem_of_fmap in Hin as (r0 & -> & Hr0).
    destruct (frame_row fs n f r0 Hframe Hr0)
      as (info & df & color & label & _ & _ & _ & Hrow & _).
    destruct Hrow as (_ & _ & He & _).
    unfold str_eq, get_str. by rewrite (reindex_lookup_Some cols _ _ _ He). }
  destruct (decide (n = name)) as [Heq|Hne].
  - apply filter_all_in. intros r Hin. rewrite (Hrows r Hin).
    by apply bool_decide_eq_true.
  - apply filter_none_in. intros r Hin. rewrite (Hrows r Hin).
    by apply bool_decide_eq_false.
Qed.

Lemma segment_absent (cols : list (string * dtype)) (name : string)
    (names : list string) (frames : list DataFrame) :
  Forall2 (frame_of fs) names frames → name ∉ names →
  flat_map (λ f, List.filter (str_eq "eruption" name) (reindex cols <$> rows f))
    frames = [].
Proof.
  induction 1 as [|n f names frames Hf _ IH]; intros Hnot; [done|].
  cbn [flat_map]. rewrite (frame_segment cols n name f Hf).
  destruct (decide (n = name)) as [->|Hne].
  - exfalso. apply Hnot. left.
  - cbn [app]. apply IH. intros Hin. apply Hnot. by right.
Qed.

Lemma segment_present (cols : list (string * dtype)) (name : string)
    (names : list string) (frames : list DataFrame) :
  NoDup names → Forall2 (frame_of fs) names frames →
  flat_map (λ f, List.filter (str_eq "eruption" name) (reindex cols <$> rows f))
    frames = []
  ∨ ∃ f, frame_of fs name f
         ∧ flat_map (λ f, List.filter (str_eq "eruption" name)
                            (reindex cols <$> rows f)) frames
           = reindex cols <$> rows f.
Proof.
  intros Hnd Hall. induction Hall as [|n f names frames Hf Hall IH]; [by left|].
  apply NoDup_cons in Hnd as [Hn Hnd].
  cbn [flat_map]. rewrite (frame_segment cols n name f Hf).
  destruct (decide (n = name)) as [->|Hne].
  - right. exists f. split; [done|].
    rewrite (segment_absent cols name names frames Hall Hn).
    by rewrite app_nil_r.
  - cbn [app]. by apply IH.
Qed.

(** The rows of a frame, by position: row [k] carries the label
    [lo + k * 10 min]. *)
Lemma frame_rows_indexed (name : string) (f : DataFrame) :
  frame_of fs name f →
  ∃ info color lo n out,
    eruptions !! name = Some info
    ∧ rows f = (λ k, out (lo + 600 * k)) <$> seqZ 0 n
    ∧ ∀ label, aligned_row (time info) name color label (out label).
Proof.
  intros (info & df & color & Hinfo & Hread & Hcolor & ->).
  destruct (aligned_rows_indexed (time info) name color
              (first_window (time info) df)) as (lo & n & out & Hrows & Hout).
  by exists info, color, lo, n, out.
Qed.

(** C8: in the table returned for a selection without repetition, the rows
    of one eruption, taken in order, have timestamps that advance by exactly
    10 minutes from each row to the next (row [j] is [(j - i) * 10 min]
    after row [i]), and [hours_to_eruption] does not decrease along them. *)
Theorem segment_timestamps_regular (selected_list : list string)
    (df_compare : DataFrame) (name : string) (i j : nat)
    (r r' : gmap string cell) :
  NoDup selected_list →
  result (load_aligned_selected fs selected_list) = Ok df_compare →
  (i ≤ j)%nat →
  rows (segment name df_compare) !! i = Some r →
  rows (segment name df_compare) !! j = Some r' →
  ∃ t h h',
    r !! "time_min" = Some (Time (Some t))
    ∧ r' !! "time_min" = Some (Time (Some (t + 600 * (Z.of_nat j - Z.of_nat i))))
    ∧ r !! "hours_to_eruption" = Some (Num (Fin h))
    ∧ r' !! "hours_to_eruption" = Some (Num (Fin h'))
    ∧ (h <= h')%Q.
Proof.
  intros Hnd Hload Hij Hi Hj.
  apply load_frames in Hload as (names & frames & Hsub & Hall & _ & Hrows).
  assert (NoDup names) as Hnd' by (by eapply sublist_NoDup).
  unfold segment, select in Hi, Hj. cbn [rows] in Hi, Hj.
  rewrite Hrows, filter_flat_map in Hi, Hj.
  destruct (segment_present (union_columns frames) name names frames Hnd' Hall)
    as [Hnil|(f & Hframe & Hseg)].
  - rewrite Hnil in Hi. done.
  - rewrite Hseg in Hi, Hj.
    destruct (frame_rows_indexed name f Hframe)
      as (info & color & lo & n & out & Hinfo & Hf & Hout).
    rewrite Hf in Hi, Hj. rewrite !list_lookup_fmap in Hi, Hj.
    destruct (seqZ 0 n !! i) as [k|] eqn:Hk; [|done].
    destruct (seqZ 0 n !! j) as [k'|] eqn:Hk'; [|done].
    apply lookup_seqZ in Hk as [-> _]. apply lookup_seqZ in Hk' as [-> _].
    cbn in Hi, Hj. injection Hi as <-. injection Hj as <-.
    destruct (Hout (lo + 600 * (0 + Z.of_nat i))) as (Ht & Hh & _).
    destruct (Hout (lo + 600 * (0 + Z.of_nat j))) as (Ht' & Hh' & _).
    exists (lo + 600 * (0 + Z.of_nat i)),
      (total_hours (lo + 600 * (0 + Z.of_nat i) - time info)),
      (total_hours (lo + 600 * (0 + Z.of_nat j) - time info)).
    split; [by apply reindex_lookup_Some|].
    split.
    { replace (lo + 600 * (0 + Z.of_nat i) + 600 * (Z.of_nat j - Z.of_nat i))
        with (lo + 600 * (0 + Z.of_nat j)) by lia.
      by apply reindex_lookup_Some. }
    split; [by apply reindex_lookup_Some|].
    split; [by apply reindex_lookup_Some|].
    apply total_hours_le. lia.
Qed.

End v2_segment.

Section v2_segment_witness.
Import Py Streamlit Pandas DashboardV2.

Lemma segment_timestamps_regular_witness :
  ∃ t h h',
    Samples.row_2016 !! "time_min" = Some (Time (Some t))
    ∧ Samples.row_2016_next !! "time_min"
      = Some (Time (Some (t + 600 * (Z.of_nat 1 - Z.of_nat 0))))
    ∧ Samples.row_2016 !! "hours_to_eruption" = Some (Num (Fin h))
    ∧ Samples.row_2016_next !! "hours_to_eruption" = Some (Num (Fin h'))
    ∧ (h <= h')%Q.
Proof.
  apply (segment_timestamps_regular Samples.fs_2016 [Samples.name_2016]
           Samples.table_2016 Samples.name_2016 0 1).
  - apply NoDup_singleton.
  - vm_compute. reflexivity.
  - lia.
  - vm_compute. reflexivity.
  - vm_compute. reflexivity.
Defined.

End v2_segment_witness.

(** ** Alignment in src/Dashboard/app.py: the same facts *)

Section dashboard_rows.
Import Py Pandas Dashboard.
Context (im : Imports) (selected_stations : list string).

Lemma dashboard_loop_body_frame (name : string) (f : DataFrame) :
  loop_body im selected_stations name = Ok (Some f) →
  frame_of im selected_stations name f.
Proof.
  unfold loop_body.
  destruct (load_eruption_file im name) as [df|e] eqn:Hload; [|done].
  cbn [mbind outcome_bind].
  destruct (select_isin "station" selected_stations df) as [df'|e] eqn:Hsel;
    [|done].
  cbn [mbind outcome_bind].
  destruct (eruptions im !! name) as [info|] eqn:Hinfo;
    [rewrite (getitem_Some _ _ _ Hinfo)|by rewrite (getitem_None _ _ Hinfo)].
  cbn [mbind outcome_bind].
  unfold select_time_between.
  destruct (column_dtype "time_min" df') as [[]|]; try done.
  cbn [mbind outcome_bind].
  destruct (empty _); [done|].
  destruct (color_map im !! name) as [color|] eqn:Hcolor;
    [rewrite (getitem_Some _ _ _ Hcolor)|by rewrite (getitem_None _ _ Hcolor)].
  cbn [mbind outcome_bind mret outcome_ret].
  intros [= <-]. by exists info, df, df', color.
Qed.

Lemma dashboard_loop_frames (selected_list : list string)
    (acc frames : list DataFrame) :
  loop im selected_stations selected_list acc = Ok frames →
  ∃ names new,
    names `sublist_of` selected_list
    ∧ frames = acc ++ new
    ∧ Forall2 (frame_of im selected_stations) names new.
Proof.
  revert acc. induction selected_list as [|name rest IH]; intros acc.
  - intros [= <-]. exists [], []. by rewrite app_nil_r.
  - cbn [loop].
    destruct (loop_body im selected_stations name) as [[f|]|e] eqn:Hbody;
      cbn [mbind outcome_bind]; [| |done].
    + intros Hloop. apply IH in Hloop as (names & new & Hsub & -> & Hall).
      exists (name :: names), (f :: new).
      split; [by apply sublist_skip|].
      split; [by rewrite <- app_assoc|].
      constructor; [|done]. by apply dashboard_loop_body_frame.
    + intros Hloop. apply IH in Hloop as (names & new & Hsub & -> & Hall).
      exists names, new. split; [by apply sublist_cons|done].
Qed.

Lemma dashboard_load_frames (selected_list : list string)
    (df_compare : DataFrame) :
  load_aligned_selected im selected_list selected_stations = Ok df_compare →
  ∃ names frames,
    names `sublist_of` selected_list
    ∧ Forall2 (frame_of im selected_stations) names frames
    ∧ columns df_compare = union_columns frames
    ∧ rows df_compare
      = flat_map (λ f, reindex (union_columns frames) <$> rows f) frames.
Proof.
  unfold load_aligned_selected.
  destruct (loop im selected_stations selected_list []) as [frames|e] eqn:Hloop;
    [|done].
  apply dashboard_loop_frames in Hloop as (names & new & Hsub & -> & Hall).
  cbn [mbind outcome_bind mret outcome_ret app].
  intros Hdf. exists names, new. split; [done|]. split; [done|].
  destruct new; injection Hdf as <-; by split.
Qed.

(** The rows of the table of [src/Dashboard/app.py]: the label is a point
    of the 10-minute grid, the hours are those of the label, more than
    -80 h 10 min and at most 24 h. *)
Lemma dashboard_row (selected_list : list string) (df_compare : DataFrame)
    (r : gmap string cell) :
  load_aligned_selected im selected_list selected_stations = Ok df_compare →
  r ∈ rows df_compare →
  ∃ name info label,
    name ∈ selected_list
    ∧ eruptions im !! name = Some info
    ∧ r !! "eruption" = Some (Str name)
    ∧ r !! "time_min" = Some (Time (Some label))
    ∧ label mod 600 = 0
    ∧ r !! "hours_to_eruption"
      = Some (Num (Fin (total_hours (label - time info))))
    ∧ (-80 - (1 # 6) < total_hours (label - time info))%Q
    ∧ (total_hours (label - time info) <= 24)%Q.
Proof.
  intros Hload Hin.
  apply dashboard_load_frames in Hload
    as (names & frames & Hsub & Hall & _ & Hrows).
  rewrite Hrows, list_elem_of_In in Hin.
  apply in_flat_map in Hin as (f & Hf & Hin).
  apply list_elem_of_In in Hf. apply list_elem_of_In in Hin.
  apply list_elem_of_fmap in Hin as (r0 & -> & Hr0).
  destruct (Forall2_elem_of_r _ _ _ _ Hall Hf) as (name & Hname & Hframe).
  destruct Hframe as (info & df & df' & color & _ & _ & Hinfo & _ & ->).
  apply aligned_frame_row in Hr0 as (label & Hrow & Hmod & Hbound & _).
  apply (aligned_row_reindex (union_columns frames)) in Hrow
    as (Ht & Hh & He & _).
  exists name, info, label.
  split; [by apply (sublist_subseteq _ _ Hsub)|].
  repeat (split; [done|]).
  rewrite !total_hours_eq. unfold Qlt, Qle; simpl. lia.
Qed.

Lemma dashboard_table_has_no_station (selected_list : list string)
    (df_compare : DataFrame) :
  Forall (λ name, station_is_text im name = true) selected_list →
  load_aligned_selected im selected_list selected_stations = Ok df_compare →
  ("station" ∉ (columns df_compare).*1)
  ∧ ∀ r, r ∈ rows df_compare → r !! "station" = None.
Proof.
  intros Htext Hload.
  apply dashboard_load_frames in Hload
    as (names & frames & Hsub & Hall & Hcols & Hrows).
  assert (∀ name f, name ∈ names → frame_of im selected_stations name f →
            ∃ t0 color df', f = aligned t0 name color df'
                            ∧ ("station", float64) ∉ columns df') as Hno.
  { intros name f Hname (info & df & df' & color & Hload & Hsel & _ & _ & ->).
    exists (time info), color, (first_window (time info) df').
    split; [done|].
    apply (sublist_subseteq _ _ Hsub) in Hname.
    rewrite Forall_forall in Htext. specialize (Htext name Hname).
    unfold station_is_text in Htext. rewrite Hload in Htext.
    apply negb_true_iff in Htext. apply bool_decide_eq_false in Htext.
    unfold select_isin in Hsel.
    destruct (column_dtype "station" df); [|done].
    by injection Hsel as <-. }
  assert ("station" ∉ (union_columns frames).*1) as Hunion.
  { intros Hin. apply union_columns_names in Hin as (f & Hf & Hin).
    destruct (Forall2_elem_of_r _ _ _ _ Hall Hf) as (name & Hname & Hframe).
    destruct (Hno name f Hname Hframe) as (t0 & color & df' & -> & Hdf').
    revert Hin. by apply aligned_columns_station. }
  split; [by rewrite Hcols|].
  intros r Hin. rewrite Hrows, list_elem_of_In in Hin.
  apply in_flat_map in Hin as (f & Hf & Hin).
  apply list_elem_of_In in Hf. apply list_elem_of_In in Hin.
  apply list_elem_of_fmap in Hin as (r0 & -> & Hr0).
  destruct (Forall2_elem_of_r _ _ _ _ Hall Hf) as (name & Hname & Hframe).
  destruct (Hno name f Hname Hframe) as (t0 & color & df' & -> & Hdf').
  apply aligned_frame_row in Hr0 as (label & _ & _ & _ & Hsta & _).
  apply reindex_lookup_None; [by apply Hsta|done].
Qed.

End dashboard_rows.

Section dashboard_examples.
Import Py Pandas Dashboard.

(** The row below the window, in [src/Dashboard/app.py], with both
    stations of the sample file selected. *)
Example dashboard_row_below_window :
  ∃ df r h,
    load_aligned_selected Samples.imports_2016 [Samples.name_2016] ["BON"; "DSM"]
      = Ok df
    ∧ rows df !! 0%nat = Some r
    ∧ r !! "time_min" = Some (Time (Some (to_datetime 2016 9 7 20 0 0)))
    ∧ r !! "hours_to_eruption" = Some (Num (Fin h))
    ∧ (h < -80)%Q.
Proof.
  eexists _, _, _.
  split; [vm_compute; reflexivity|].
  split; [vm_compute; reflexivity|].
  split; [vm_compute; reflexivity|].
  split; [vm_compute; reflexivity|].
  by vm_compute.
Qed.

End dashboard_examples.

(** * Further properties of the scripts *)

(** ** src/dashboard_v2/app.py: what the alignment reports and returns *)

Section v2_turns.
Import Py Streamlit Pandas DashboardV2.
Context (fs : FileSystem).

(** Every eruption of the table has a display colour. *)
Lemma color_of_eruption (name : string) (info : eruption_info) :
  eruptions !! name = Some info → ∃ color, color_map !! name = Some color.
Proof.
  intros Hinfo.
  assert (dom eruptions = dom color_map) as Hdom by (vm_compute; reflexivity).
  assert (name ∈ dom color_map) as Hin.
  { rewrite <- Hdom. apply elem_of_dom. by exists info. }
  by apply elem_of_dom in Hin.
Qed.

(** A turn on a file with rows in the first window: no Streamlit call, one
    frame appended. *)
Lemma loop_body_in_window (name : string) (acc : list DataFrame) :
  in_window fs name →
  ∃ f, frame_of fs name f ∧ loop_body fs name acc = ([], Ok (acc ++ [f])).
Proof.
  intros (info & df & Hinfo & Hpath & Hread & Htime & Hemp).
  destruct (color_of_eruption name info Hinfo) as [color Hcolor].
  exists (aligned (time info) name color (first_window (time info) df)).
  split; [by exists info, df, color|].
  unfold loop_body.
  rewrite (getitem_Some _ _ _ Hinfo), st_lift_ok_bind, Hpath. cbn [negb].
  assert (try_body fs name info
          = ([], Ok (Some (aligned (time info) name color
                             (first_window (time info) df))))) as ->.
  { unfold try_body. rewrite Hread, st_lift_ok_bind.
    unfold select_time_between. rewrite Htime, st_lift_ok_bind.
    fold (first_window (time info) df). rewrite Hemp.
    by rewrite (getitem_Some _ _ _ Hcolor), st_lift_ok_bind. }
  done.
Qed.

(** A turn on a file without a row in the first window: the warning, and
    nothing appended. *)
Lemma loop_body_out_of_window (name : string) (acc : list DataFrame) :
  out_of_window fs name →
  loop_body fs name acc
  = ([st_warning ("No data in window for " +:+ name)], Ok acc).
Proof.
  intros (info & df & Hinfo & Hpath & Hread & Htime & Hemp).
  unfold loop_body.
  rewrite (getitem_Some _ _ _ Hinfo), st_lift_ok_bind, Hpath. cbn [negb].
  assert (try_body fs name info
          = ([st_warning ("No data in window for " +:+ name)], Ok None)) as ->.
  { unfold try_body. rewrite Hread, st_lift_ok_bind.
    unfold select_time_between. rewrite Htime, st_lift_ok_bind.
    fold (first_window (time info) df). rewrite Hemp.
    by rewrite st_emit_bind. }
  done.
Qed.

(** A turn on a file that exists and cannot be read: the error message, and
    nothing appended. *)
Lemma loop_body_read_error (name : string) (info : eruption_info) (e : exn)
    (acc : list DataFrame) :
  eruptions !! name = Some info →
  path_exists fs (file info) = true →
  read_preprocessed fs (file info) = Raise e →
  loop_body fs name acc
  = ([st_error ("Error loading " +:+ name +:+ ": " +:+ str e)], Ok acc).
Proof.
  intros Hinfo Hpath Hread. unfold loop_body.
  rewrite (getitem_Some _ _ _ Hinfo), st_lift_ok_bind, Hpath. cbn [negb].
  assert (try_body fs name info = ([], Raise e)) as ->.
  { unfold try_body. by rewrite Hread. }
  done.
Qed.

(** A turn that makes one call and appends nothing can be dropped from the
    selection: the table is the same, the calls lose that one. *)
Lemma skipped_turn (l1 l2 : list string) (x : string) (c : st_call) :
  (∀ acc, loop_body fs x acc = ([c], Ok acc)) →
  result (load_aligned_selected fs (l1 ++ x :: l2))
    = result (load_aligned_selected fs (l1 ++ l2))
  ∧ (Forall (λ name, is_Some (eruptions !! name)) l1 →
     calls (load_aligned_selected fs (l1 ++ x :: l2))
     = calls (load_aligned_selected fs l1)
       ++ c :: calls (load_aligned_selected fs l2)).
Proof.
  intros Hturn.
  assert (∀ acc, loop fs (x :: l2) acc
                 = (c :: calls (loop fs l2 acc), result (loop fs l2 acc)))
    as Hskip.
  { intros acc. cbn [loop]. rewrite (Hturn acc). by rewrite st_bind_ok. }
  split.
  - rewrite !load_result, !loop_app, !st_result_bind.
    destruct (result (loop fs l1 [])) as [fr|e]; [|done].
    by rewrite Hskip.
  - intros Hknown. rewrite !load_calls, !loop_app, !st_calls_bind.
    destruct (loop_known fs l1 [] Hknown) as [fr ->].
    rewrite Hskip. cbn [calls fst].
    by rewrite (loop_acc fs l2 fr).
Qed.

End v2_turns.

Section v2_table.
Import Py Streamlit Pandas DashboardV2.

(** X1: every row of the returned table carries the identifier of a
    selected eruption of the table and the colour that [color_map] gives
    that eruption; no other identifier and no other colour can appear. *)
Theorem rows_carry_selected_eruption (fs : FileSystem)
    (selected_list : list string) (df_compare : DataFrame)
    (r : gmap string cell) :
  result (load_aligned_selected fs selected_list) = Ok df_compare →
  r ∈ rows df_compare →
  ∃ name color,
    name ∈ selected_list
    ∧ is_Some (eruptions !! name)
    ∧ color_map !! name = Some color
    ∧ r !! "eruption" = Some (Str name)
    ∧ r !! "color" = Some (Str color).
Proof.
  intros Hload Hin.
  destruct (load_row fs _ _ _ Hload Hin)
    as (name & info & df & color & label & Hname & Hinfo & _ & Hcolor & Hrow & _).
  destruct Hrow as (_ & _ & He & Hc).
  exists name, color. by repeat split; [|exists info| | |].
Qed.

Lemma rows_carry_selected_eruption_witness :
  ∃ name color,
    name ∈ [Samples.name_2016]
    ∧ is_Some (eruptions !! name)
    ∧ color_map !! name = Some color
    ∧ Samples.row_2016 !! "eruption" = Some (Str name)
    ∧ Samples.row_2016 !! "color" = Some (Str color).
Proof.
  apply (rows_carry_selected_eruption Samples.fs_2016 [Samples.name_2016]
           Samples.table_2016 Samples.row_2016).
  - vm_compute. reflexivity.
  - apply (list_elem_of_lookup_2 _ 0%nat). vm_compute. reflexivity.
Defined.

Lemma hours_within_ten_minutes_of_window_witness :
  ∃ name info h,
    name ∈ [Samples.name_2016]
    ∧ eruptions !! name = Some info
    ∧ Samples.row_2016 !! "eruption" = Some (Str name)
    ∧ Samples.row_2016 !! "hours_to_eruption" = Some (Num (Fin h))
    ∧ (-80 - (1 # 6) < h)%Q ∧ (h <= 24)%Q
    ∧ (time info mod 600 = 0 → (-80 <= h)%Q).
Proof.
  apply (hours_within_ten_minutes_of_window Samples.fs_2016 [Samples.name_2016]
           Samples.table_2016 Samples.row_2016).
  - vm_compute. reflexivity.
  - apply (list_elem_of_lookup_2 _ 0%nat). vm_compute. reflexivity.
Defined.

(** X3: an eruption whose file exists but cannot be read or preprocessed
    (the exception [e]) is reported by [st.error("Error loading <name>:
    <e>")] and skipped: the table is the one returned without it, and the
    other eruptions' calls are unchanged. *)
Theorem read_error_is_isolated (fs : FileSystem) (l1 l2 : list string)
    (x : string) (info : eruption_info) (e : exn) :
  eruptions !! x = Some info →
  path_exists fs (file info) = true →
  read_preprocessed fs (file info) = Raise e →
  result (load_aligned_selected fs (l1 ++ x :: l2))
    = result (load_aligned_selected fs (l1 ++ l2))
  ∧ (Forall (λ name, is_Some (eruptions !! name)) l1 →
     calls (load_aligned_selected fs (l1 ++ x :: l2))
     = calls (load_aligned_selected fs l1)
       ++ st_error ("Error loading " +:+ x +:+ ": " +:+ str e)
          :: calls (load_aligned_selected fs l2)).
Proof.
  intros Hinfo Hpath Hread. apply skipped_turn.
  intros acc. by apply (loop_body_read_error fs x info).
Qed.

Lemma read_error_is_isolated_witness :
  result (load_aligned_selected Samples.fs_unreadable
            ([] ++ Samples.name_2015 :: [Samples.name_2016]))
    = result (load_aligned_selected Samples.fs_unreadable ([] ++ [Samples.name_2016]))
  ∧ (Forall (λ name, is_Some (eruptions !! name)) [] →
     calls (load_aligned_selected Samples.fs_unreadable
              ([] ++ Samples.name_2015 :: [Samples.name_2016]))
     = calls (load_aligned_selected Samples.fs_unreadable [])
       ++ st_error ("Error loading " +:+ Samples.name_2015 +:+ ": "
                    +:+ str (OSError "No such file or directory"))
          :: calls (load_aligned_selected Samples.fs_unreadable [Samples.name_2016])).
Proof.
  apply (read_error_is_isolated Samples.fs_unreadable [] [Samples.name_2016]
           Samples.name_2015
           {| file := "2015_08_24_19h_50_UTC_pf_aggregated_1min_1Hz.csv";
              time := to_datetime 2015 8 24 16 50 0 |}).
  - vm_compute. reflexivity.
  - vm_compute. reflexivity.
  - vm_compute. reflexivity.
Defined.

(** X4: an eruption whose file is read but has no row between 82 h before
    and 24 h after the eruption instant is skipped with the warning "No data
    in window for <name>": the table is the one returned without it. *)
Theorem empty_window_is_isolated (fs : FileSystem) (l1 l2 : list string)
    (x : string) :
  out_of_window fs x →
  result (load_aligned_selected fs (l1 ++ x :: l2))
    = result (load_aligned_selected fs (l1 ++ l2))
  ∧ (Forall (λ name, is_Some (eruptions !! name)) l1 →
     calls (load_aligned_selected fs (l1 ++ x :: l2))
     = calls (load_aligned_selected fs l1)
       ++ st_warning ("No data in window for " +:+ x)
          :: calls (load_aligned_selected fs l2)).
Proof.
  intros Hout. apply skipped_turn.
  intros acc. by apply loop_body_out_of_window.
Qed.

Lemma empty_window_is_isolated_witness :
  result (load_aligned_selected Samples.fs_shared
            ([] ++ Samples.name_2015 :: [Samples.name_2016]))
    = result (load_aligned_selected Samples.fs_shared ([] ++ [Samples.name_2016]))
  ∧ (Forall (λ name, is_Some (eruptions !! name)) [] →
     calls (load_aligned_selected Samples.fs_shared
              ([] ++ Samples.name_2015 :: [Samples.name_2016]))
     = calls (load_aligned_selected Samples.fs_shared [])
       ++ st_warning ("No data in window for " +:+ Samples.name_2015)
          :: calls (load_aligned_selected Samples.fs_shared [Samples.name_2016])).
Proof.
  apply (empty_window_is_isolated Samples.fs_shared [] [Samples.name_2016]
           Samples.name_2015).
  exists {| file := "2015_08_24_19h_50_UTC_pf_aggregated_1min_1Hz.csv";
            time := to_datetime 2015 8 24 16 50 0 |}, Samples.df_2016.
  repeat split; vm_compute; reflexivity.
Defined.

(** X5: a name that is not a key of [eruptions] is not caught by the [try]:
    the routine raises [KeyError(name)] at that turn, returns no table, and
    the eruptions after it are never processed (the calls are those of the
    eruptions before it). *)
Theorem unknown_name_raises (fs : FileSystem) (l1 l2 : list string) (x : string) :
  eruptions !! x = None →
  Forall (λ name, is_Some (eruptions !! name)) l1 →
  result (load_aligned_selected fs (l1 ++ x :: l2)) = Raise (KeyError x)
  ∧ calls (load_aligned_selected fs (l1 ++ x :: l2))
    = calls (load_aligned_selected fs l1).
Proof.
  intros Hx Hknown.
  assert (∀ acc, loop fs (x :: l2) acc = ([], Raise (KeyError x))) as Hraise.
  { intros acc. cbn [loop]. unfold loop_body.
    by rewrite (getitem_None _ _ Hx). }
  destruct (loop_known fs l1 [] Hknown) as [fr Hfr].
  split.
  - rewrite load_result, loop_app, st_result_bind, Hfr. by rewrite Hraise.
  - rewrite !load_calls, loop_app, st_calls_bind, Hfr, Hraise.
    cbn [calls fst]. by rewrite app_nil_r.
Qed.

Lemma unknown_name_raises_witness :
  result (load_aligned_selected Samples.fs_2016
            ([Samples.name_2016] ++ "Etna" :: [Samples.name_2015]))
    = Raise (KeyError "Etna")
  ∧ calls (load_aligned_selected Samples.fs_2016
             ([Samples.name_2016] ++ "Etna" :: [Samples.name_2015]))
    = calls (load_aligned_selected Samples.fs_2016 [Samples.name_2016]).
Proof.
  apply (unknown_name_raises Samples.fs_2016 [Samples.name_2016]
           [Samples.name_2015] "Etna").
  - vm_compute. reflexivity.
  - constructor; [|constructor]. vm_compute. eauto.
Defined.

End v2_table.

Section v2_table_shape.
Import Py Streamlit Pandas DashboardV2.

Lemma loop_in_window (fs : FileSystem) (selected_list : list string)
    (acc : list DataFrame) :
  Forall (in_window fs) selected_list →
  ∃ frames,
    Forall2 (frame_of fs) selected_list frames
    ∧ loop fs selected_list acc = ([], Ok (acc ++ frames)).
Proof.
  intros Hall. revert acc.
  induction Hall as [|name rest Hname _ IH]; intros acc.
  - exists []. split; [constructor|]. cbn [loop]. by rewrite app_nil_r.
  - destruct (loop_body_in_window fs name acc Hname) as (f & Hf & Hbody).
    destruct (IH (acc ++ [f])) as (frames & Hframes & Hloop).
    exists (f :: frames). split; [by constructor|].
    cbn [loop]. rewrite Hbody, st_bind_ok, Hloop.
    cbn [calls result fst snd app]. by rewrite <- app_assoc.
Qed.

Lemma length_flat_map_rows (cols : list (string * dtype))
    (frames : list DataFrame) :
  length (flat_map (λ f, reindex cols <$> rows f) frames)
  = sum_list ((λ f, length (rows f)) <$> frames).
Proof.
  induction frames as [|f frames IH]; [done|].
  cbn [flat_map fmap list_fmap sum_list sum_list_with].
  by rewrite length_app, length_fmap, IH.
Qed.

(** X6: when every selected eruption is in the table and its file exists
    and is read with at least one row in the first window, the routine makes
    no Streamlit call and returns the concatenation, in the order of the
    selection, of one aligned frame per selected eruption; the number of
    rows of the table is the sum of the numbers of rows of these frames. *)
Theorem readable_selection_concatenates (fs : FileSystem)
    (selected_list : list string) :
  Forall (in_window fs) selected_list →
  ∃ frames,
    Forall2 (frame_of fs) selected_list frames
    ∧ load_aligned_selected fs selected_list = ([], Ok (concat frames))
    ∧ length (rows (concat frames))
      = sum_list ((λ f, length (rows f)) <$> frames).
Proof.
  intros Hall.
  destruct (loop_in_window fs selected_list [] Hall) as (frames & Hframes & Hloop).
  exists frames. split; [done|]. split.
  - unfold load_aligned_selected. rewrite Hloop, st_bind_ok.
    cbn [app calls result fst snd]. by destruct frames.
  - unfold concat. cbn [rows]. apply length_flat_map_rows.
Qed.

Lemma readable_selection_concatenates_witness :
  ∃ frames,
    Forall2 (frame_of Samples.fs_shared) [Samples.name_2016] frames
    ∧ load_aligned_selected Samples.fs_shared [Samples.name_2016]
      = ([], Ok (concat frames))
    ∧ length (rows (concat frames))
      = sum_list ((λ f, length (rows f)) <$> frames).
Proof.
  apply (readable_selection_concatenates Samples.fs_shared [Samples.name_2016]).
  constructor; [|constructor].
  exists {| file := Samples.file_2016; time := to_datetime 2016 9 11 4 5 0 |},
    Samples.df_2016.
  repeat split; vm_compute; reflexivity.
Defined.

Lemma aligned_length (t0 : Z) (name color : string) (df : DataFrame) :
  (length (rows (aligned t0 name color df)) ≤ 625)%nat.
Proof.
  destruct (aligned_rows t0 name color df) as (out & -> & _).
  destruct (bin_labels_spec (index_times "time_min" (rows (windowed t0 df))))
    as (lo & n & -> & _ & _ & Hbound).
  rewrite !length_fmap, length_seqZ.
  destruct (decide (n ≤ 0)) as [Hn|Hn]; [lia|].
  assert (∀ t, t ∈ index_times "time_min" (rows (windowed t0 df)) →
               t0 - 288000 ≤ t ≤ t0 + 86400) as Htimes
    by (intros t Ht; by apply windowed_times in Ht).
  pose proof (Hbound _ _ Htimes 0 ltac:(lia)) as H0.
  pose proof (Hbound _ _ Htimes (n - 1) ltac:(lia)) as Hn1.
  lia.
Qed.

(** X7: an eruption contributes at most 625 rows (the 10-minute steps of a
    window of 104 h 10 min), so the table has at most 625 rows per selected
    eruption. *)
Theorem rows_per_eruption_bounded (fs : FileSystem)
    (selected_list : list string) (df_compare : DataFrame) :
  result (load_aligned_selected fs selected_list) = Ok df_compare →
  (length (rows df_compare) ≤ 625 * length selected_list)%nat.
Proof.
  intros Hload.
  apply load_frames in Hload as (names & frames & Hsub & Hall & _ & ->).
  rewrite length_flat_map_rows.
  apply sublist_length in Hsub.
  assert (sum_list ((λ f, length (rows f)) <$> frames) ≤ 625 * length names)%nat;
    [|lia].
  clear Hsub. induction Hall as [|name f names frames Hf _ IH]; [done|].
  rewrite fmap_cons. cbn [sum_list_with length].
  destruct Hf as (info & df & color & _ & _ & _ & ->).
  pose proof (aligned_length (time info) name color
                (first_window (time info) df)).
  unfold id in *. lia.
Qed.

Lemma rows_per_eruption_bounded_witness :
  (length (rows Samples.table_2016) ≤ 625 * length [Samples.name_2016])%nat.
Proof.
  apply (rows_per_eruption_bounded Samples.fs_2016).
  vm_compute. reflexivity.
Defined.

(** X8: in the table returned for a selection without repetition, the rows
    whose [eruption] is [name] (what every chart selects at line 256) are
    exactly the rows of the aligned frame of [name], in the same order, each
    extended to the columns of the table; there are none when [name]
    contributed no frame. *)
Theorem segment_is_frame (fs : FileSystem) (selected_list : list string)
    (df_compare : DataFrame) (name : string) :
  NoDup selected_list →
  result (load_aligned_selected fs selected_list) = Ok df_compare →
  rows (segment name df_compare) = []
  ∨ ∃ f, frame_of fs name f
         ∧ rows (segment name df_compare)
           = reindex (columns df_compare) <$> rows f.
Proof.
  intros Hnd Hload.
  apply load_frames in Hload as (names & frames & Hsub & Hall & Hcols & Hrows).
  assert (NoDup names) as Hnd' by (by eapply sublist_NoDup).
  unfold segment, select. cbn [rows].
  rewrite Hrows, Hcols, filter_flat_map.
  apply (segment_present fs (union_columns frames) name names frames Hnd' Hall).
Qed.

Lemma segment_is_frame_witness :
  rows (segment Samples.name_2016 Samples.table_2016) = []
  ∨ ∃ f, frame_of Samples.fs_2016 Samples.name_2016 f
         ∧ rows (segment Samples.name_2016 Samples.table_2016)
           = reindex (columns Samples.table_2016) <$> rows f.
Proof.
  apply (segment_is_frame Samples.fs_2016 [Samples.name_2016]).
  - apply NoDup_singleton.
  - vm_compute. reflexivity.
Defined.

End v2_table_shape.

(** ** src/dashboard_v2/app.py: the spectrogram section past the guard *)

Section spectrogram_branch.
Import Py Streamlit Pandas DashboardV2.

(** X9: with 100 rows or more for the station in the window, the section
    does not report "not enough data": when the numeric part returns a
    heatmap it is drawn, followed by the success message and the
    explanation, in that order; when the numeric part raises, the exception
    leaves the section (nothing catches it) and nothing is drawn. *)
Theorem spectrogram_enough_data (sp : Scipy) (df_raw df : DataFrame)
    (spec_eruption spec_station : string) (info : eruption_info) :
  eruptions !! spec_eruption = Some info →
  spectrogram_input df_raw spec_station (time info) = Ok df →
  (100 ≤ length (rows df))%nat →
  spectrogram_section sp df_raw spec_eruption spec_station
  = match heatmap_of sp df (time info) with
    | Ok fig =>
        ([st_plotly_chart fig; st_success "REAL VOLCANIC TREMOR DETECTED!";
          st_markdown what_you_see], Ok tt)
    | Raise e => ([], Raise e)
    end.
Proof.
  intros Hinfo Hdf Hlen.
  unfold spectrogram_section, getitem, lift, mbind, ST_bind, bind.
  rewrite Hinfo, Hdf.
  assert ((length (rows df) <? 100)%nat = false) as ->
    by (by apply Nat.ltb_ge).
  by destruct (heatmap_of sp df (time info)).
Qed.

Lemma spectrogram_enough_data_witness :
  spectrogram_section Samples.flat_scipy Samples.df_100 Samples.name_2016 "BON"
  = match heatmap_of Samples.flat_scipy Samples.df_100
            (to_datetime 2016 9 11 4 5 0) with
    | Ok fig =>
        ([st_plotly_chart fig; st_success "REAL VOLCANIC TREMOR DETECTED!";
          st_markdown what_you_see], Ok tt)
    | Raise e => ([], Raise e)
    end.
Proof.
  apply (spectrogram_enough_data Samples.flat_scipy Samples.df_100
           Samples.df_100 Samples.name_2016 "BON"
           {| file := Samples.file_2016; time := to_datetime 2016 9 11 4 5 0 |}).
  - vm_compute. reflexivity.
  - vm_compute. reflexivity.
  - vm_compute. lia.
Defined.

(** X10: the frame handed to the spectrogram holds exactly the rows of the
    raw frame whose [station] is the selected one and whose timestamp lies
    between 48 h before and 12 h after the eruption instant. *)
Theorem spectrogram_input_rows (df_raw df : DataFrame) (spec_station : string)
    (erupt_time : Z) (r : gmap string cell) :
  spectrogram_input df_raw spec_station erupt_time = Ok df →
  (r ∈ rows df
   ↔ r ∈ rows df_raw
     ∧ r !! "station" = Some (Str spec_station)
     ∧ ∃ t, r !! "time_min" = Some (Time (Some t))
            ∧ (-48 <= total_hours (t - erupt_time))%Q
            ∧ (total_hours (t - erupt_time) <= 12)%Q).
Proof.
  unfold spectrogram_input.
  destruct (column_dtype "station" df_raw); [|done].
  destruct (column_dtype "time_min" df_raw) as [[]|]; try done.
  intros [= <-]. unfold select. cbn [rows]. rewrite in_filter.
  assert (∀ t, (-48 <= total_hours (t - erupt_time))%Q
               ∧ (total_hours (t - erupt_time) <= 12)%Q
               ↔ erupt_time - Timedelta_hours 48 ≤ t
                 ∧ t ≤ erupt_time + Timedelta_hours 12) as Hhours.
  { intros t. rewrite !total_hours_eq. unfold Qle, Timedelta_hours; simpl. lia. }
  split.
  - intros [Hin Hmask]. split; [done|].
    apply andb_true_iff in Hmask as [Hsta Htime].
    unfold str_eq, get_str in Hsta. unfold time_between, get_time in Htime.
    destruct (r !! "station") as [[|s| |]|]; try done.
    apply bool_decide_eq_true in Hsta as ->. split; [done|].
    destruct (r !! "time_min") as [[| |[t|]|]|]; try done.
    exists t. split; [done|]. apply Hhours.
    apply andb_true_iff in Htime as [H1 H2].
    apply Z.leb_le in H1. apply Z.leb_le in H2. done.
  - intros (Hin & Hsta & t & Ht & Hlo & Hhi). split; [done|].
    apply andb_true_iff. unfold str_eq, get_str, time_between, get_time.
    rewrite Hsta, Ht. split; [by apply bool_decide_eq_true|].
    destruct (proj1 (Hhours t) (conj Hlo Hhi)) as [H1 H2].
    apply andb_true_iff. split; by apply Z.leb_le.
Qed.

Lemma spectrogram_input_rows_witness :
  Samples.sample (to_datetime 2016 9 10 0 0 0 + 60 * 0) "BON" 900 1
    ∈ rows Samples.df_100
  ↔ Samples.sample (to_datetime 2016 9 10 0 0 0 + 60 * 0) "BON" 900 1
      ∈ rows Samples.df_100
    ∧ Samples.sample (to_datetime 2016 9 10 0 0 0 + 60 * 0) "BON" 900 1
        !! "station" = Some (Str "BON")
    ∧ ∃ t, Samples.sample (to_datetime 2016 9 10 0 0 0 + 60 * 0) "BON" 900 1
             !! "time_min" = Some (Time (Some t))
           ∧ (-48 <= total_hours (t - to_datetime 2016 9 11 4 5 0))%Q
           ∧ (total_hours (t - to_datetime 2016 9 11 4 5 0) <= 12)%Q.
Proof.
  apply (spectrogram_input_rows Samples.df_100 Samples.df_100 "BON"
           (to_datetime 2016 9 11 4 5 0)).
  vm_compute. reflexivity.
Defined.

End spectrogram_branch.

(** ** src/dashboard_v2/app.py: the sidebar alert *)

Section sidebar_alert.
Import Py Pandas Risk DashboardV2.





(** X12: only the last 100 rows of the latest file count: two files with
    the same columns and the same last 100 rows give the same alert,
    whatever their older rows. *)
Theorem alert_uses_last_100_rows (read1 read2 : string → outcome DataFrame)
    (cols : list (string * dtype)) (older1 older2 last : list (gmap string cell)) :
  length last = 100%nat →
  read1 latest_file = Ok {| columns := cols; rows := older1 ++ last |} →
  read2 latest_file = Ok {| columns := cols; rows := older2 ++ last |} →
  alert_tier read1 = alert_tier read2.
Proof.
  intros Hlen H1 H2. unfold alert_tier. rewrite H1, H2.
  assert (∀ older, tail 100 {| columns := cols; rows := older ++ last |}
                   = {| columns := cols; rows := last |}) as Htail.
  { intros older. unfold tail. cbn [columns rows]. f_equal.
    rewrite length_app, Hlen.
    replace (length older + 100 - 100)%nat with (length older) by lia.
    apply drop_app_length. }
  by rewrite !Htail.
Qed.

Lemma alert_uses_last_100_rows_witness :
  alert_tier (λ _, Ok Samples.df_103) = alert_tier (λ _, Ok Samples.df_100).
Proof.
  apply (alert_uses_last_100_rows (λ _, Ok Samples.df_103)
           (λ _, Ok Samples.df_100) Samples.raw_columns
           [Samples.sample 0 "BON" 9000 1; Samples.sample 60 "BON" 9000 1;
            Samples.sample 120 "BON" 9000 1] [] Samples.last_100).
  - vm_compute. reflexivity.
  - reflexivity.
  - reflexivity.
Defined.

End sidebar_alert.

(** ** src/dashboard_v2/app.py: the station markers *)

Section station_markers.
Import Py Pandas DashboardV2.

(** X13: with a non-empty palette, drawing the markers never fails; a
    selected station without coordinates is skipped, every other one gets a
    circle and a label at its coordinates of [station_coords], and the
    circle of the station at position [k] of the selection has the colour at
    index [(i + k) mod len(colors)], skipped stations counting in [k]. *)
Theorem markers_of_known_stations (colors : list string) (i : nat)
    (selected_stations_map : list string) :
  colors ≠ [] →
  ∃ layers,
    add_markers colors i selected_stations_map = Some layers
    ∧ length layers
      = (2 * length (filter (λ sta, is_Some (station_coords !! sta))
                       selected_stations_map))%nat
    ∧ (∀ layer, layer ∈ layers →
         ∃ sta, sta ∈ selected_stations_map
                ∧ station_coords !! sta = Some (layer_location layer))
    ∧ (∀ k sta loc,
         selected_stations_map !! k = Some sta →
         station_coords !! sta = Some loc →
         ∃ c, colors !! ((i + k) mod length colors)%nat = Some c
              ∧ CircleMarker loc c ∈ layers
              ∧ Marker loc (label_html sta) ∈ layers).
Proof.
  intros Hcolors. revert i.
  induction selected_stations_map as [|sta rest IH]; intros i.
  - exists []. split; [done|]. split; [done|]. split.
    + intros layer Hin. by apply elem_of_nil in Hin.
    + intros k sta loc Hk. by rewrite lookup_nil in Hk.
  - destruct (IH (S i)) as (layers & Hrest & Hlen & Hloc & Hcol).
    cbn [add_markers].
    destruct (station_coords !! sta) as [loc|] eqn:Hsta.
    + assert (∃ c, colors !! (i mod length colors)%nat = Some c) as [c Hc].
      { apply lookup_lt_is_Some. apply Nat.mod_upper_bound.
        by destruct colors. }
      exists (CircleMarker loc c :: Marker loc (label_html sta) :: layers).
      split.
      { destruct colors; [done|]. rewrite Hc, Hrest. done. }
      split.
      { rewrite filter_cons_True by (by rewrite Hsta). cbn [length].
        rewrite Hlen. lia. }
      split.
      { intros layer Hin.
        apply elem_of_cons in Hin as [->|Hin]; [exists sta; split; [left|done]|].
        apply elem_of_cons in Hin as [->|Hin]; [exists sta; split; [left|done]|].
        destruct (Hloc layer Hin) as (sta' & Hin' & Hsta').
        exists sta'. split; [by right|done]. }
      intros k sta' loc' Hk Hsta'. destruct k as [|k].
      { injection Hk as <-. rewrite Hsta in Hsta'. injection Hsta' as <-.
        exists c. rewrite Nat.add_0_r. split; [done|].
        split; [left|right; left]. }
      destruct (Hcol k sta' loc' Hk Hsta') as (c' & Hc' & Hin1 & Hin2).
      exists c'. replace (i + S k)%nat with (S i + k)%nat by lia.
      split; [done|]. split; by do 2 right.
    + exists layers. split; [done|]. split.
      { rewrite filter_cons_False; [done|]. rewrite Hsta. by intros [? ?]. }
      split.
      { intros layer Hin. destruct (Hloc layer Hin) as (sta' & Hin' & Hsta').
        exists sta'. split; [by right|done]. }
      intros k sta' loc' Hk Hsta'. destruct k as [|k].
      { injection Hk as <-. congruence. }
      destruct (Hcol k sta' loc' Hk Hsta') as (c' & Hc' & Hin1 & Hin2).
      exists c'. by replace (i + S k)%nat with (S i + k)%nat by lia.
Qed.

Lemma markers_of_known_stations_witness :
  ∃ layers,
    add_markers ["red"; "blue"] 0 ["BON"; "XYZ"; "DSM"] = Some layers
    ∧ length layers
      = (2 * length (filter (λ sta, is_Some (station_coords !! sta))
                       ["BON"; "XYZ"; "DSM"]))%nat
    ∧ (∀ layer, layer ∈ layers →
         ∃ sta, sta ∈ ["BON"; "XYZ"; "DSM"]
                ∧ station_coords !! sta = Some (layer_location layer))
    ∧ (∀ k sta loc,
         ["BON"; "XYZ"; "DSM"] !! k = Some sta →
         station_coords !! sta = Some loc →
         ∃ c, ["red"; "blue"] !! ((0 + k) mod length ["red"; "blue"])%nat = Some c
              ∧ CircleMarker loc c ∈ layers
              ∧ Marker loc (label_html sta) ∈ layers).
Proof.
  apply (markers_of_known_stations ["red"; "blue"] 0 ["BON"; "XYZ"; "DSM"]).
  discriminate.
Defined.

End station_markers.

(** ** src/Dashboard/app.py: station selections and exceptions *)

Section dashboard_selection.
Import Py Pandas Dashboard.

Lemma select_isin_agree (values1 values2 : list string) (df : DataFrame) :
  (∀ r s, r ∈ rows df → r !! "station" = Some (Str s) →
          (s ∈ values1 ↔ s ∈ values2)) →
  select_isin "station" values1 df = select_isin "station" values2 df.
Proof.
  intros Hagree. unfold select_isin, select.
  destruct (column_dtype "station" df); [|done].
  do 2 f_equal. apply filter_ext_in. intros r Hr.
  apply list_elem_of_In in Hr.
  unfold str_isin, get_str.
  destruct (r !! "station") as [[|s| |]|] eqn:Hs; try done.
  apply bool_decide_ext. by apply (Hagree r s).
Qed.

(** X14: the station selection counts only through which stations of the
    loaded files it contains: two selections that contain the same stations
    among those present in the files of the selected eruptions (in any
    order, with repetitions, with or without stations absent from the files)
    give the same result. *)
Theorem stations_matter_by_membership (im : Imports)
    (selected_list stations1 stations2 : list string) :
  (∀ name df r s,
     name ∈ selected_list → load_eruption_file im name = Ok df →
     r ∈ rows df → r !! "station" = Some (Str s) →
     (s ∈ stations1 ↔ s ∈ stations2)) →
  load_aligned_selected im selected_list stations1
  = load_aligned_selected im selected_list stations2.
Proof.
  intros Hagree. unfold load_aligned_selected.
  assert (∀ frames, loop im stations1 selected_list frames
                    = loop im stations2 selected_list frames) as ->; [|done].
  induction selected_list as [|name rest IH]; intros frames; [done|].
  cbn [loop].
  assert (loop_body im stations1 name = loop_body im stations2 name) as ->.
  { unfold loop_body.
    destruct (load_eruption_file im name) as [df|e] eqn:Hload; [|done].
    cbn [mbind outcome_bind].
    rewrite (select_isin_agree stations1 stations2 df); [done|].
    intros r s Hr Hs. apply (Hagree name df r s); [left|done..]. }
  destruct (loop_body im stations2 name) as [res|e]; [|done].
  cbn [mbind outcome_bind]. apply IH.
  intros name' df r s Hin. apply Hagree. by right.
Qed.

Lemma stations_matter_by_membership_witness :
  load_aligned_selected Samples.imports_2016 [Samples.name_2016] ["BON"; "DSM"]
  = load_aligned_selected Samples.imports_2016 [Samples.name_2016]
      ["DSM"; "BON"; "DSM"].
Proof.
  apply (stations_matter_by_membership Samples.imports_2016).
  intros name df r s _ _ _ _.
  rewrite !elem_of_cons, !elem_of_nil. tauto.
Defined.

End dashboard_selection.

Section dashboard_exceptions.
Import Py Pandas Dashboard.

(** X15: nothing catches an exception in this variant: when a turn of the
    loop raises (the loader fails, the name is unknown, a column is
    missing), and the turns before it returned, the routine raises that
    exception and returns no table, whatever the remaining eruptions. *)
Theorem exception_aborts_alignment (im : Imports)
    (selected_stations l1 l2 : list string) (x : string) (e : exn) :
  Forall (λ name, ∃ res, loop_body im selected_stations name = Ok res) l1 →
  loop_body im selected_stations x = Raise e →
  load_aligned_selected im (l1 ++ x :: l2) selected_stations = Raise e.
Proof.
  intros Hl1 Hx. unfold load_aligned_selected.
  assert (∀ frames, loop im selected_stations (l1 ++ x :: l2) frames = Raise e)
    as ->; [|done].
  induction Hl1 as [|name rest [res Hres] _ IH]; intros frames.
  - cbn [app loop]. by rewrite Hx.
  - cbn [app loop]. rewrite Hres. cbn [mbind outcome_bind]. apply IH.
Qed.

Lemma exception_aborts_alignment_witness :
  load_aligned_selected Samples.imports_2016
    ([Samples.name_2016] ++ Samples.name_2015 :: [Samples.name_2016])
    ["BON"; "DSM"]
  = Raise (OSError "No such file or directory").
Proof.
  apply (exception_aborts_alignment Samples.imports_2016 ["BON"; "DSM"]
           [Samples.name_2016] [Samples.name_2016] Samples.name_2015).
  - constructor; [|constructor]. eexists. vm_compute. reflexivity.
  - vm_compute. reflexivity.
Defined.

End dashboard_exceptions.

(** ** src/app.py: the run and its risk panel *)

Section app_panel.
Import Py Streamlit Pandas Risk App.

(** X16: with no eruption selected the frame is [pd.DataFrame()], and the
    run raises [KeyError('station')] at line 66, before any panel is drawn,
    whatever the files and the station selection. *)
Theorem empty_eruption_selection_raises (read_csv : string → outcome DataFrame)
    (selected_stations : list string) :
  run read_csv [] selected_stations = Raise (KeyError "station").
Proof. done. Qed.

(** X17: the legend marks an entry as current only when its text equals
    [risk_text], and the two lists of texts share "Éruption en cours" only:
    the top tier is marked, and for every other tier the five entries are
    drawn unmarked. *)
Theorem legend_marks_only_eruption (max_std : float) :
  legend_calls (risk_text_color_emoji (classify max_std)).1.1
  = match classify max_std with
    | ERUPTION =>
        current_entry "purple" "Éruption en cours"
          :: ((λ entry : string * string, other_entry entry.1 entry.2)
                <$> drop 1 legend)
    | _ => (λ entry : string * string, other_entry entry.1 entry.2) <$> legend
    end.
Proof. destruct (classify max_std); vm_compute; reflexivity. Qed.

Lemma Qmax_ge_l (a b : Q) : (a <= Pandas.Qmax a b)%Q.
Proof.
  unfold Pandas.Qmax. destruct (Qle_bool a b) eqn:Hab.
  - by apply Qle_bool_iff.
  - apply Qle_refl.
Qed.

Lemma foldl_Qmax_ge (a : Q) (l : list Q) : (a <= foldl Pandas.Qmax a l)%Q.
Proof.
  revert a. induction l as [|b l IH]; intros a; [apply Qle_refl|].
  cbn [foldl]. apply Qle_trans with (Pandas.Qmax a b); [apply Qmax_ge_l|apply IH].
Qed.

Lemma finite_values_app (xs ys : list float) :
  finite_values (xs ++ ys) = finite_values xs ++ finite_values ys.
Proof. unfold finite_values. apply omap_app. Qed.

(** The maximum of a longer column is at least the maximum of its
    beginning. *)
Lemma max_app (xs ys : list float) (q : Q) :
  Pandas.max xs = Fin q → ∃ q', Pandas.max (xs ++ ys) = Fin q' ∧ (q <= q')%Q.
Proof.
  unfold Pandas.max. rewrite finite_values_app.
  destruct (finite_values xs) as [|q0 qs]; [done|].
  intros [= <-]. cbn [app]. rewrite foldl_app.
  eexists. split; [done|]. apply foldl_Qmax_ge.
Qed.

(** X18: for frames with the same columns, appending rows never lowers the
    tier of the risk panel: if [max_std] is computed on a frame and on the
    same frame with more rows, the second tier is at least as severe. *)
Theorem more_rows_never_lower_risk (cols : list (string * dtype))
    (rows1 extra : list (gmap string cell)) (x x' : float) :
  max_std_of {| columns := cols; rows := rows1 |} = Ok x →
  max_std_of {| columns := cols; rows := rows1 ++ extra |} = Ok x' →
  (severity (classify x) ≤ severity (classify x'))%nat.
Proof.
  unfold max_std_of, empty. cbn [columns rows].
  destruct cols as [|cd cols].
  { cbn. by intros [= <-] [= <-]. }
  destruct rows1 as [|r rows1].
  { cbn [negb]. intros [= <-] _. assert (classify (Fin 0) = NORMAL) as ->
      by (by vm_compute). cbn. lia. }
  cbn [app negb]. unfold column_max, column_dtype. cbn [columns rows].
  destruct (list_to_map (cd :: cols) !! "amplitude_std") as [[]|]; try done.
  intros H1 H2.
  assert (x = Pandas.max (get_num "amplitude_std" <$> (r :: rows1))) as ->
    by (by injection H1 as <-).
  assert (x' = Pandas.max (get_num "amplitude_std" <$> ((r :: rows1) ++ extra)))
    as -> by (by injection H2 as <-).
  clear H1 H2.
  destruct (Pandas.max (get_num "amplitude_std" <$> (r :: rows1)))
    as [|q] eqn:Hmax.
  { assert (classify NaN = NORMAL) as -> by done. cbn. lia. }
  rewrite fmap_app.
  destruct (max_app _ (get_num "amplitude_std" <$> extra) q Hmax)
    as (q' & -> & Hle).
  rewrite !app_classify_chain. by apply chain_monotone.
Qed.

Lemma more_rows_never_lower_risk_witness :
  (severity (classify (Fin 200)) ≤ severity (classify (Fin 50000)))%nat.
Proof.
  apply (more_rows_never_lower_risk Samples.raw_columns
           [Samples.sample (to_datetime 2020 12 6 0 0 0) "BON" 100 200]
           [Samples.sample (to_datetime 2020 12 6 0 0 0) "DSM" 9000 50000]).
  - vm_compute. reflexivity.
  - vm_compute. reflexivity.
Defined.

End app_panel.

(** ** src/dashboard_v2/app.py: steps without samples *)

Section v2_gaps.
Import Py Streamlit Pandas DashboardV2.



(** The second row of the sample table is such a step: nothing was recorded
    between 20:10 and 20:20. *)
Example sample_gap_row :
  Samples.row_2016_next !! "time_min"
    = Some (Time (Some (to_datetime 2016 9 7 20 10 0)))
  ∧ Samples.row_2016_next !! "amplitude_mean" = Some (Num NaN).
Proof. split; vm_compute; reflexivity. Qed.

End v2_gaps.
